(** * server.js: the availability and booking handlers

    A shallow embedding of the two request handlers of [server.js] that talk
    to the calendar ([POST /availability] and [POST /book]) together with the
    helpers they call ([readJsonFallback], [getOAuth2Client], [ensureAuthed]).

    Conventions of the embedding:
    - a request body is a JSON object, a finite map from keys to JSON values;
      a key that is absent reads as [undefined] ([None]);
    - JSON numbers are integers;
    - a dayjs object is its timestamp in milliseconds, or [None] for an
      invalid date; adding minutes beyond the range of [Date] gives an invalid
      date;
    - the Calendar Service is an oracle that answers the n-th call of the
      run; every call is appended to a log, so that the calls a handler
      issues can be counted and inspected;
    - the [while] loop of the forward scan takes fuel; a run that uses up its
      fuel has no response. *)

From stdpp Require Import base numbers option list sorting strings pretty gmap.

Local Open Scope Z_scope.

(** ** JSON values and JavaScript coercions *)

Inductive jval : Type :=
| JNull
| JBool (b : bool)
| JNum (n : Z)
| JStr (s : string).

(** Truthiness of a value read from an object; [None] is [undefined]. *)
Definition truthy (v : option jval) : bool :=
  match v with
  | None => false
  | Some JNull => false
  | Some (JBool b) => b
  | Some (JNum n) => negb (n =? 0)
  | Some (JStr s) => match s with EmptyString => false | String _ _ => true end
  end.

(** A value spliced into a template literal. *)
Definition template (v : option jval) : string :=
  match v with
  | None => "undefined"
  | Some JNull => "null"
  | Some (JBool true) => "true"
  | Some (JBool false) => "false"
  | Some (JNum n) => pretty n
  | Some (JStr s) => s
  end.

(** The template literal that joins a date and a time of day with a space. *)
Definition datetime (d t : option jval) : string :=
  template d +:+ " " +:+ template t.

(** [v || d] spliced into a template literal, for a string literal [d]. *)
Definition or_else (v : option jval) (d : string) : string :=
  if truthy v then template v else d.

(** ** Errors, results and the handler monad *)

Inductive error : Type :=
| AuthenticationError   (* 'Faltan tokens. Ejecuta /auth y /oauth2callback ...' *)
| UpstreamError         (* a Calendar Service call is rejected *)
| RangeError            (* invalid time value, unknown time zone *)
| SyntaxError           (* JSON.parse *)
| TypeError.

Inductive result (A : Type) : Type :=
| Return (a : A)
| Raise (e : error).
Arguments Return {A} a.
Arguments Raise {A} e.

(** A dayjs object: its timestamp in milliseconds, [None] when invalid. *)
Definition instant : Type := option Z.

Definition MILLISECONDS_A_MINUTE : Z := 60000.

(** One Calendar Service call, with the request it carries. *)
Inductive call : Type :=
| FreeBusyQuery (calendarId : option jval) (timeMin timeMax : Z) (timeZone : jval)
| EventsInsert (calendarId : option jval) (summary description : string)
               (startDateTime endDateTime : Z) (timeZone : jval).

(** The text of a JSON source, as [JSON.parse] sees it. *)
Inductive json_text (A : Type) : Type :=
| BadJson
| Json (a : A).
Arguments BadJson {A}.
Arguments Json {A} a.

(** What the process runs against: its configuration, the date library and
    the Calendar Service. [freebusy_query n] and [events_insert n] answer the
    call made when [n] calls have been made before; a free/busy answer is
    [calendars[calendarId]?.busy], [None] when undefined. *)
Record environment : Type := {
  TIMEZONE : string;
  CREDENTIALS_JSON : option (json_text unit);
  CREDENTIALS_FILE : option (json_text unit);
  TOKENS_JSON : option (json_text (gmap string jval));
  TOKENS_FILE : option (json_text (gmap string jval));
  dayjs_tz : string -> jval -> result instant;
  format_HHmm : Z -> string;
  StringToNumber : string -> option Z;
  freebusy_query : nat -> option jval -> Z -> Z -> jval -> result (option (list (Z * Z)));
  events_insert : nat -> option jval -> string -> string -> Z -> Z -> jval -> result string
}.

Inductive outcome (A : Type) : Type :=
| Ok (a : A)
| Throw (e : error)
| Diverge.
Arguments Ok {A} a.
Arguments Throw {A} e.
Arguments Diverge {A}.

(** A computation reads the log of the calls made so far and extends it. *)
Definition M (A : Type) : Type := list call -> outcome A * list call.

Definition ret {A} (a : A) : M A := fun log => (Ok a, log).

Definition bind {A B} (c : M A) (k : A -> M B) : M B :=
  fun log =>
    match c log with
    | (Ok a, log') => k a log'
    | (Throw e, log') => (Throw e, log')
    | (Diverge, log') => (Diverge, log')
    end.

Definition diverge {A} : M A := fun log => (Diverge, log).

Definition lift {A} (r : result A) : M A :=
  fun log => match r with Return a => (Ok a, log) | Raise e => (Throw e, log) end.

Notation "'let*' x := c 'in' k" := (bind c (fun x => k))
  (at level 10, x name, c at level 100, k at level 200).

(** ** dayjs *)

(** [Number(v)]; [None] is NaN. *)
Definition to_number (E : environment) (v : jval) : option Z :=
  match v with
  | JNull => Some 0
  | JBool b => Some (if b then 1 else 0)
  | JNum n => Some n
  | JStr s => StringToNumber E s
  end.

(** The largest time value of a [Date], 8.64e15 milliseconds either side of
    the epoch; a [Date] built from a time value beyond it is invalid. *)
Definition MAX_TIME_VALUE : Z := 8640000000000000.

Definition valid_time (t : Z) : bool :=
  (- MAX_TIME_VALUE <=? t) && (t <=? MAX_TIME_VALUE).

(** [d.add(number, 'minute')]: a new object on the shifted time value, invalid
    when the time value leaves the range of [Date]. *)
Definition add (E : environment) (d : instant) (number : jval) : instant :=
  match d, to_number E number with
  | Some t, Some n =>
    if valid_time (t + n * MILLISECONDS_A_MINUTE)
    then Some (t + n * MILLISECONDS_A_MINUTE)
    else None
  | _, _ => None
  end.

Definition isBefore (a b : instant) : bool :=
  match a, b with
  | Some x, Some y => x <? y
  | _, _ => false
  end.

Definition isAfter (a b : instant) : bool :=
  match a, b with
  | Some x, Some y => y <? x
  | _, _ => false
  end.

(** [a.diff(b, 'minute')], truncated towards zero; [None] is NaN. *)
Definition diff (a b : instant) : option Z :=
  match a, b with
  | Some x, Some y => Some ((x - y) ÷ MILLISECONDS_A_MINUTE)
  | _, _ => None
  end.

Definition toISOString (d : instant) : result Z :=
  match d with
  | Some t => Return t
  | None => Raise RangeError
  end.

(** [d.format('HH:mm')] *)
Definition format (E : environment) (d : instant) : string :=
  match d with
  | Some t => format_HHmm E t
  | None => "Invalid Date"
  end.

(** [n < v] for an array length [n]. *)
Definition lt_num (E : environment) (n : nat) (v : jval) : bool :=
  match to_number E v with
  | Some m => Z.of_nat n <? m
  | None => false
  end.

(** [x > 180] for a possibly NaN [x]. *)
Definition gt_180 (x : option Z) : bool :=
  match x with
  | Some d => 180 <? d
  | None => false
  end.

(** ** Credentials *)

Definition readJsonFallback {A} (envValue filePath : option (json_text A)) : result (option A) :=
  match envValue with
  | Some (Json a) => Return (Some a)
  | Some BadJson => Raise SyntaxError
  | None =>
    match filePath with
    | Some (Json a) => Return (Some a)
    | Some BadJson => Raise SyntaxError
    | None => Return None
    end
  end.

(** The OAuth2 client, as far as the handlers look at it. *)
Record OAuth2Client : Type := { credentials : gmap string jval }.

Definition getOAuth2Client (E : environment) : result OAuth2Client :=
  match readJsonFallback (CREDENTIALS_JSON E) (CREDENTIALS_FILE E) with
  | Raise e => Raise e
  | Return _ =>
    match readJsonFallback (TOKENS_JSON E) (TOKENS_FILE E) with
    | Raise e => Raise e
    | Return (Some tokens) => Return {| credentials := tokens |}
    | Return None => Return {| credentials := ∅ |}
    end
  end.

Definition ensureAuthed (oAuth2Client : OAuth2Client) : result unit :=
  if negb (truthy (credentials oAuth2Client !! "refresh_token"))
  then Raise AuthenticationError
  else Return tt.

(** ** Calendar Service calls *)

(** [cal.freebusy.query] followed by [fb.data.calendars[calendarId]?.busy || []]. *)
Definition freebusy (E : environment) (calendarId : option jval)
    (s e : instant) (tz : jval) : M (list (Z * Z)) :=
  let* timeMin := lift (toISOString s) in
  let* timeMax := lift (toISOString e) in
  fun log =>
    let log' := log ++ [FreeBusyQuery calendarId timeMin timeMax tz] in
    match freebusy_query E (length log) calendarId timeMin timeMax tz with
    | Raise err => (Throw err, log')
    | Return busy => (Ok (default [] busy), log')
    end.

(** [cal.events.insert] followed by [r.data.id]. *)
Definition insert (E : environment) (calendarId : option jval)
    (summary description : string) (s e : instant) (tz : jval) : M string :=
  let* startDateTime := lift (toISOString s) in
  let* endDateTime := lift (toISOString e) in
  fun log =>
    let log' := log ++ [EventsInsert calendarId summary description
                          startDateTime endDateTime tz] in
    match events_insert E (length log) calendarId summary description
            startDateTime endDateTime tz with
    | Raise err => (Throw err, log')
    | Return id => (Ok id, log')
    end.

(** ** Responses *)

Inductive payload : Type :=
| ErrorBody (error : string)                               (* { error } *)
| Availability (disponible : bool) (sugerencias : list string)
| Booked (eventId : string)                                (* { ok: true, eventId } *)
| NotBooked (error : string).                              (* { ok: false, error } *)

Record response : Type := { status : Z; json : payload }.

(** [try { ... } catch (e) { console.error(e); res.status(500).json(...) }] *)
Definition try_catch (block : M response) (handler : response)
    (log : list call) : option response * list call :=
  match block log with
  | (Ok r, log') => (Some r, log')
  | (Throw _, log') => (Some handler, log')
  | (Diverge, log') => (None, log')
  end.

Definition is_empty {A} (l : list A) : bool :=
  match l with [] => true | _ :: _ => false end.

(** ** POST /availability *)

Module Availability.

(** The names bound by destructuring [req.body]. *)
Record args : Type := {
  calendarId : option jval;
  date : option jval;
  time : option jval;
  durationMin : jval;
  tz : jval;
  horarioInicio : jval;
  horarioFin : jval;
  stepMin : jval;
  maxSugs : jval
}.

Definition destructure (E : environment) (body : gmap string jval) : args :=
  {| calendarId := body !! "calendarId";
     date := body !! "date";
     time := body !! "time";
     durationMin := default (JNum 45) (body !! "durationMin");
     tz := default (JStr (TIMEZONE E)) (body !! "tz");
     horarioInicio := default (JStr "09:00") (body !! "horarioInicio");
     horarioFin := default (JStr "19:00") (body !! "horarioFin");
     stepMin := default (JNum 15) (body !! "stepMin");
     maxSugs := default (JNum 3) (body !! "maxSugs") |}.

(** The [while] loop: one iteration per unit of fuel. *)
Fixpoint forward_scan (E : environment) (a : args) (start workStart workEnd : instant)
    (fuel : nat) (cursor : instant) (sug : list string) : M (list string) :=
  match fuel with
  | O => diverge
  | S fuel =>
    if lt_num E (length sug) (maxSugs a) then
      let cursor := add E cursor (stepMin a) in
      let s := cursor in
      let e := add E s (durationMin a) in
      if isBefore s workStart || isAfter e workEnd then ret sug
      else
        let* b2 := freebusy E (calendarId a) s e (tz a) in
        let sug := if is_empty b2 then sug ++ [format E s] else sug in
        if gt_180 (diff cursor start) then ret sug
        else forward_scan E a start workStart workEnd fuel cursor sug
    else ret sug
  end.

(** The body of the [try] block. *)
Definition block (E : environment) (fuel : nat) (a : args) : M response :=
  if negb (truthy (calendarId a)) || negb (truthy (date a)) || negb (truthy (time a))
  then ret {| status := 400; json := ErrorBody "missing_fields" |}
  else
    let* auth := lift (getOAuth2Client E) in
    let* _ := lift (ensureAuthed auth) in
    let* start := lift (dayjs_tz E (datetime (date a) (time a)) (tz a)) in
    let end_ := add E start (durationMin a) in
    let* busy := freebusy E (calendarId a) start end_ (tz a) in
    if is_empty busy
    then ret {| status := 200; json := Availability true [] |}
    else
      let* workStart :=
        lift (dayjs_tz E (datetime (date a) (Some (horarioInicio a))) (tz a)) in
      let* workEnd :=
        lift (dayjs_tz E (datetime (date a) (Some (horarioFin a))) (tz a)) in
      let* sug := forward_scan E a start workStart workEnd fuel start [] in
      ret {| status := 200; json := Availability false sug |}.

Definition handler (E : environment) (fuel : nat) (body : gmap string jval)
    : list call -> option response * list call :=
  try_catch (block E fuel (destructure E body))
            {| status := 500; json := ErrorBody "availability_failed" |}.

End Availability.

(** ** POST /book *)

Module Book.

Record args : Type := {
  calendarId : option jval;
  date : option jval;
  time : option jval;
  durationMin : jval;
  tz : jval;
  nombre : option jval;
  tel : option jval;
  servicio : option jval;
  barbero : option jval;
  nota : option jval;
  code : option jval
}.

Definition destructure (E : environment) (body : gmap string jval) : args :=
  {| calendarId := body !! "calendarId";
     date := body !! "date";
     time := body !! "time";
     durationMin := default (JNum 45) (body !! "durationMin");
     tz := default (JStr (TIMEZONE E)) (body !! "tz");
     nombre := body !! "nombre";
     tel := body !! "tel";
     servicio := body !! "servicio";
     barbero := body !! "barbero";
     nota := body !! "nota";
     code := body !! "code" |}.

Definition nl : string := String (Ascii.ascii_of_nat 10) EmptyString.

Definition summary (a : args) : string :=
  or_else (servicio a) "Servicio" +:+ " - " +:+ or_else (nombre a) "Cliente".

Definition description (a : args) : string :=
  "Cliente: " +:+ or_else (nombre a) "" +:+ nl +:+
  "Tel: " +:+ or_else (tel a) "" +:+ nl +:+
  "Servicio: " +:+ or_else (servicio a) "" +:+ nl +:+
  "Barbero: " +:+ or_else (barbero a) "" +:+ nl +:+
  "Nota: " +:+ or_else (nota a) "" +:+ nl +:+
  "Code: " +:+ or_else (code a) "" +:+ nl +:+
  "Estado: Pendiente de confirmación" +:+ nl +:+
  "Canal: WhatsApp".

Definition block (E : environment) (a : args) : M response :=
  if negb (truthy (calendarId a)) || negb (truthy (date a)) || negb (truthy (time a))
  then ret {| status := 400; json := ErrorBody "missing_fields" |}
  else
    let* auth := lift (getOAuth2Client E) in
    let* _ := lift (ensureAuthed auth) in
    let* start := lift (dayjs_tz E (datetime (date a) (time a)) (tz a)) in
    let end_ := add E start (durationMin a) in
    let* id := insert E (calendarId a) (summary a) (description a) start end_ (tz a) in
    ret {| status := 200; json := Booked id |}.

Definition handler (E : environment) (body : gmap string jval)
    : list call -> option response * list call :=
  try_catch (block E (destructure E body))
            {| status := 500; json := NotBooked "booking_failed" |}.

End Book.

(** ** Reading a call log against the Calendar Service *)

(** The service rejects call [c] when it is the call number [n]. *)
Definition rejected (E : environment) (n : nat) (c : call) : bool :=
  match c with
  | FreeBusyQuery calendarId timeMin timeMax tz =>
    match freebusy_query E n calendarId timeMin timeMax tz with
    | Raise _ => true
    | Return _ => false
    end
  | EventsInsert calendarId summary description s e tz =>
    match events_insert E n calendarId summary description s e tz with
    | Raise _ => true
    | Return _ => false
    end
  end.

(** The id of the event the service creates for call number [n], if [c] is
    an insertion and the service accepts it. *)
Definition created (E : environment) (n : nat) (c : call) : option string :=
  match c with
  | FreeBusyQuery _ _ _ _ => None
  | EventsInsert calendarId summary description s e tz =>
    match events_insert E n calendarId summary description s e tz with
    | Raise _ => None
    | Return id => Some id
    end
  end.

Definition is_query (c : call) : bool :=
  match c with
  | FreeBusyQuery _ _ _ _ => true
  | EventsInsert _ _ _ _ _ _ => false
  end.

(** The same process in front of a calendar with another busy state. *)
Definition with_freebusy (E : environment)
    (f : nat -> option jval -> Z -> Z -> jval -> result (option (list (Z * Z))))
    : environment :=
  {| TIMEZONE := TIMEZONE E;
     CREDENTIALS_JSON := CREDENTIALS_JSON E;
     CREDENTIALS_FILE := CREDENTIALS_FILE E;
     TOKENS_JSON := TOKENS_JSON E;
     TOKENS_FILE := TOKENS_FILE E;
     dayjs_tz := dayjs_tz E;
     format_HHmm := format_HHmm E;
     StringToNumber := StringToNumber E;
     freebusy_query := f;
     events_insert := events_insert E |}.

(** A computation that stops with an exception as soon as the service
    rejects one of its calls. *)
Definition aborts_on_rejection {A} (E : environment) (c : M A) : Prop :=
  forall log o log', c log = (o, log') ->
    log `prefix_of` log' /\
    forall (n : nat) (q : call),
      log' !! n = Some q -> (length log <= n)%nat ->
      rejected E n q = true -> exists e, o = Throw e.

(** ** A small calendar to run the handlers on

    Times of day on one date: an instant is the number of milliseconds after
    that date's midnight; every time zone reads the same. The calendar holds
    a fixed list of events and reports the ones a queried interval meets. *)

Module Fixture.

Definition digit (c : Ascii.ascii) : option Z :=
  let n := Z.of_nat (Ascii.nat_of_ascii c) - 48 in
  if (0 <=? n) && (n <=? 9) then Some n else None.

(** The time of day that ends a 'YYYY-MM-DD HH:mm' text. *)
Definition clock (text : string) : option Z :=
  match String.substring 11 6 text with
  | String h1 (String h2 (String sep (String m1 (String m2 EmptyString)))) =>
    match digit h1, digit h2, digit m1, digit m2 with
    | Some a, Some b, Some c, Some d =>
      if Ascii.eqb sep (Ascii.ascii_of_nat 58)
      then Some (((10 * a + b) * 60 + (10 * c + d)) * MILLISECONDS_A_MINUTE)
      else None
    | _, _, _, _ => None
    end
  | _ => None
  end.

Definition tz (text : string) (zone : jval) : result instant :=
  match clock text with
  | Some t => Return (Some t)
  | None => Raise RangeError
  end.

Definition two_digits (n : Z) : string :=
  if n <? 10 then "0" +:+ pretty n else pretty n.

Definition HHmm (t : Z) : string :=
  let minutes := (t `div` MILLISECONDS_A_MINUTE) `mod` 1440 in
  two_digits (minutes `div` 60) +:+ ":" +:+ two_digits (minutes `mod` 60).

Definition overlaps (timeMin timeMax : Z) (event : Z * Z) : bool :=
  (event.1 <? timeMax) && (timeMin <? event.2).

Definition calendar (events : list (Z * Z))
    (n : nat) (calendarId : option jval) (timeMin timeMax : Z) (zone : jval)
    : result (option (list (Z * Z))) :=
  Return (Some (List.filter (overlaps timeMin timeMax) events)).

Definition tokens : gmap string jval := {[ "refresh_token" := JStr "1//refresh" ]}.

(** A process with the given token source and calendar events; every event
    insertion is accepted and numbered. *)
Definition env (TOKENS : option (json_text (gmap string jval))) (events : list (Z * Z))
    : environment :=
  {| TIMEZONE := "America/Costa_Rica";
     CREDENTIALS_JSON := Some (Json tt);
     CREDENTIALS_FILE := None;
     TOKENS_JSON := TOKENS;
     TOKENS_FILE := None;
     dayjs_tz := tz;
     format_HHmm := HHmm;
     StringToNumber := fun _ => None;
     freebusy_query := calendar events;
     events_insert := fun n _ _ _ _ _ _ => Return ("evt" +:+ pretty n) |}.

(** The same process when the service rejects the free/busy call number [k]. *)
Definition failing_at (k : nat) (E : environment) : environment :=
  with_freebusy E (fun n calendarId timeMin timeMax zone =>
    if (n =? k)%nat then Raise UpstreamError
    else freebusy_query E n calendarId timeMin timeMax zone).

(** Minutes after midnight, as an instant. *)
Definition at_ (h m : Z) : Z := (h * 60 + m) * MILLISECONDS_A_MINUTE.

Definition barber : option jval := Some (JStr "barber@group.calendar.google.com").

Definition zone : jval := JStr "America/Costa_Rica".

(** A process that holds a refresh token, and one that holds no token. *)
Definition authorized (events : list (Z * Z)) : environment :=
  env (Some (Json tokens)) events.

Definition unauthorized : environment := env None [].

(** A request for 10:00 with every other field left to its default, and the
    same request for 20:00. *)
Definition ten_oclock : gmap string jval :=
  {[ "calendarId" := JStr "barber@group.calendar.google.com";
     "date" := JStr "2024-05-06";
     "time" := JStr "10:00" ]}.

Definition evening : gmap string jval :=
  {[ "calendarId" := JStr "barber@group.calendar.google.com";
     "date" := JStr "2024-05-06";
     "time" := JStr "20:00" ]}.

End Fixture.

(** ** Free candidates in a call log *)

(** The service answers call [c], made as call number [n], with an empty
    busy list. *)
Definition reported_free (E : environment) (n : nat) (c : call) : bool :=
  match c with
  | FreeBusyQuery calendarId timeMin timeMax tz =>
    match freebusy_query E n calendarId timeMin timeMax tz with
    | Return busy => is_empty (default [] busy)
    | Raise _ => false
    end
  | EventsInsert _ _ _ _ _ _ => false
  end.

(** The instant at which the interval of a call starts. *)
Definition starts_at (c : call) : Z :=
  match c with
  | FreeBusyQuery _ timeMin _ _ => timeMin
  | EventsInsert _ _ _ startDateTime _ _ => startDateTime
  end.

(** The starts of the calls that the service reports free, in the order of
    the calls; [n] is the number of the first call. *)
Fixpoint free_starts (E : environment) (n : nat) (calls : list call) : list Z :=
  match calls with
  | [] => []
  | c :: rest =>
    if reported_free E n c
    then starts_at c :: free_starts E (S n) rest
    else free_starts E (S n) rest
  end.

(** ** Where the credentials come from *)

(** The source [readJsonFallback] reads: the environment value when there is
    one, the file otherwise. *)
Definition effective {A} (envValue filePath : option (json_text A))
    : option (json_text A) :=
  match envValue with
  | Some text => Some text
  | None => filePath
  end.

(** The same process after [tokens.json] has been replaced. *)
Definition with_tokens_file (E : environment)
    (file : option (json_text (gmap string jval))) : environment :=
  {| TIMEZONE := TIMEZONE E;
     CREDENTIALS_JSON := CREDENTIALS_JSON E;
     CREDENTIALS_FILE := CREDENTIALS_FILE E;
     TOKENS_JSON := TOKENS_JSON E;
     TOKENS_FILE := file;
     dayjs_tz := dayjs_tz E;
     format_HHmm := format_HHmm E;
     StringToNumber := StringToNumber E;
     freebusy_query := freebusy_query E;
     events_insert := events_insert E |}.

(** ** GET /oauth2callback *)

Module OAuthCallback.

(** The Authorization Provider and the file system, as the handler meets
    them: [getToken code] answers with the [tokens] field of the reply
    ([None] when the reply has none), and [writable] tells whether
    [writeFileSync(TOKEN_PATH, ...)] goes through. *)
Record world : Type := {
  getToken : option jval -> result (option (gmap string jval));
  writable : bool
}.

Definition saved : string :=
  "✅ Tokens guardados (si el filesystem lo permite). Copia tokens.json a la variable de entorno TOKENS_JSON en Render.".

(** The inner [try]: [JSON.stringify(undefined)] is [undefined], which
    [writeFileSync] refuses; a refused write is logged and forgotten. What is
    written is the JSON text of [tokens], which parses back to [tokens]. *)
Definition write_tokens (E : environment) (W : world)
    (tokens : option (gmap string jval)) : environment :=
  match tokens with
  | Some t => if writable W then with_tokens_file E (Some (Json t)) else E
  | None => E
  end.

(** The status and text sent, and the process as later requests find it. *)
Definition handler (E : environment) (W : world) (query : gmap string jval)
    : (Z * string) * environment :=
  match getOAuth2Client E with
  | Raise _ => ((500, "Auth error"), E)
  | Return auth =>
    let code := query !! "code" in
    match getToken W code with
    | Raise _ => ((500, "Auth error"), E)
    | Return tokens => ((200, saved), write_tokens E W tokens)
    end
  end.

End OAuthCallback.

(** ** GET /calendars/list and POST /calendars/create *)

Module Calendars.

Inductive request : Type :=
| CalendarListList
| CalendarsInsert (summary : option jval) (timeZone : jval).

(** The two Calendar Service operations: [calendarList.list] answers
    [r.data.items] ([None] when undefined), [calendars.insert] answers
    [r.data.id]. *)
Record service : Type := {
  calendarList_list : result (option (list (gmap string jval)));
  calendars_insert : option jval -> jval -> result (option jval)
}.

Record item : Type := {
  summary : option jval;
  id : option jval;
  primary : bool;
  timeZone : option jval
}.

Inductive payload : Type :=
| Items (items : list item)
| ListFailed                                  (* { error: 'list_failed' } *)
| Created (id : option jval)                  (* { ok: true, id } *)
| CreateFailed.                               (* { ok: false, error: 'create_calendar_failed' } *)

Definition to_item (c : gmap string jval) : item :=
  {| summary := c !! "summary";
     id := c !! "id";
     primary := truthy (c !! "primary");
     timeZone := c !! "timeZone" |}.

(** The status and body sent, and the calls made. *)
Definition list_handler (E : environment) (S : service)
    : (Z * payload) * list request :=
  match getOAuth2Client E with
  | Raise _ => ((500, ListFailed), [])
  | Return auth =>
    match ensureAuthed auth with
    | Raise _ => ((500, ListFailed), [])
    | Return _ =>
      match calendarList_list S with
      | Raise _ => ((500, ListFailed), [CalendarListList])
      | Return items =>
        ((200, Items (to_item <$> default [] items)), [CalendarListList])
      end
    end
  end.

Definition create_handler (E : environment) (S : service) (body : gmap string jval)
    : (Z * payload) * list request :=
  let summary := body !! "summary" in
  let timeZone := default (JStr (TIMEZONE E)) (body !! "timeZone") in
  match getOAuth2Client E with
  | Raise _ => ((500, CreateFailed), [])
  | Return auth =>
    match ensureAuthed auth with
    | Raise _ => ((500, CreateFailed), [])
    | Return _ =>
      match calendars_insert S summary timeZone with
      | Raise _ => ((500, CreateFailed), [CalendarsInsert summary timeZone])
      | Return id => ((200, Created id), [CalendarsInsert summary timeZone])
      end
    end
  end.

End Calendars.

(** ** More of the small calendar *)

Module Scenario.


(** An Authorization Provider that grants a refresh token for the code
    "4/ok" and refuses any other code. *)
Definition granting (writable : bool) : OAuthCallback.world :=
  {| OAuthCallback.getToken := fun code =>
       match code with
       | Some (JStr "4/ok") => Return (Some Fixture.tokens)
       | _ => Raise UpstreamError
       end;
     OAuthCallback.writable := writable |}.

(** A process without any token, in the environment or on disk, and one
    whose environment holds a token without a refresh token. *)
Definition fresh : environment := Fixture.env None [].

Definition stale : environment :=
  Fixture.env (Some (Json {[ "access_token" := JStr "ya29" ]})) [].

(** A process whose [tokens.json] is not JSON. *)
Definition corrupt : environment :=
  with_tokens_file (Fixture.env None []) (Some BadJson).


Definition refusing : environment :=
  {| TIMEZONE := "America/Costa_Rica";
     CREDENTIALS_JSON := Some (Json tt);
     CREDENTIALS_FILE := None;
     TOKENS_JSON := Some (Json Fixture.tokens);
     TOKENS_FILE := None;
     dayjs_tz := Fixture.tz;
     format_HHmm := Fixture.HHmm;
     StringToNumber := fun _ => None;
     freebusy_query := Fixture.calendar [];
     events_insert := fun _ _ _ _ _ _ _ => Raise UpstreamError |}.

(** A Calendar Service with two calendars. *)
Definition two_calendars : Calendars.service :=
  {| Calendars.calendarList_list :=
       Return (Some [ {[ "id" := JStr "primary"; "summary" := JStr "Me";
                         "primary" := JBool true; "etag" := JStr "x" ]};
                      {[ "id" := JStr "barber@group.calendar.google.com";
                         "summary" := JStr "Barber" ]} ]);
     Calendars.calendars_insert := fun _ _ => Return (Some (JStr "new@group")) |}.

End Scenario.

(** * Properties *)

(** ** The forward scan on well-typed arguments *)

Section Scan.
Context (E : environment) (a : Availability.args).
Context (start : Z) (workStart workEnd : instant) (step dur m : Z).
Hypothesis Hstep : to_number E (Availability.stepMin a) = Some step.
Hypothesis Hdur : to_number E (Availability.durationMin a) = Some dur.
Hypothesis Hmax : to_number E (Availability.maxSugs a) = Some m.

Local Abbreviation scan :=
  (Availability.forward_scan E a (Some start) workStart workEnd).
Local Abbreviation query s :=
  (FreeBusyQuery (Availability.calendarId a) s
                 (s + dur * MILLISECONDS_A_MINUTE) (Availability.tz a)).
Local Abbreviation ask n s :=
  (freebusy_query E n (Availability.calendarId a) s
                  (s + dur * MILLISECONDS_A_MINUTE) (Availability.tz a)).

(** One iteration of the loop, spelled out on timestamps. A candidate whose
    start is not a valid date, or whose end is not one while its start is
    not before the working hours, raises at [toISOString]. *)
Lemma forward_scan_step fuel c sug log :
  scan (S fuel) (Some c) sug log =
  if Z.of_nat (length sug) <? m then
    let s := c + step * MILLISECONDS_A_MINUTE in
    if valid_time s then
      if valid_time (s + dur * MILLISECONDS_A_MINUTE) then
        if isBefore (Some s) workStart
           || isAfter (Some (s + dur * MILLISECONDS_A_MINUTE)) workEnd
        then (Ok sug, log)
        else
          match ask (length log) s with
          | Raise err => (Throw err, log ++ [query s])
          | Return busy =>
            let sug' := if is_empty (default [] busy)
                        then sug ++ [format_HHmm E s] else sug in
            if 180 <? (s - start) ÷ MILLISECONDS_A_MINUTE
            then (Ok sug', log ++ [query s])
            else scan fuel (Some s) sug' (log ++ [query s])
          end
      else if isBefore (Some s) workStart then (Ok sug, log)
           else (Throw RangeError, log)
    else (Throw RangeError, log)
  else (Ok sug, log).
Proof.
  cbn [Availability.forward_scan]. unfold lt_num, add. rewrite Hmax, Hstep.
  destruct (Z.of_nat (length sug) <? m); [|reflexivity].
  cbv zeta. destruct (valid_time (c + step * MILLISECONDS_A_MINUTE));
    [|reflexivity].
  rewrite Hdur.
  destruct (valid_time (c + step * MILLISECONDS_A_MINUTE
                        + dur * MILLISECONDS_A_MINUTE)).
  - destruct (isBefore _ _ || isAfter _ _); [reflexivity|].
    unfold bind, freebusy, lift, toISOString, bind.
    destruct (ask (length log) (c + step * MILLISECONDS_A_MINUTE)) as [busy|err];
      [|reflexivity].
    cbn [diff gt_180 format]. cbv zeta.
    destruct (180 <? _); reflexivity.
  - cbn [isAfter]. rewrite orb_false_r.
    destruct (isBefore _ _); reflexivity.
Qed.

Lemma quot_advance c :
  start <= c -> 0 <= step ->
  (c + step * MILLISECONDS_A_MINUTE - start) ÷ MILLISECONDS_A_MINUTE
  = (c - start) ÷ MILLISECONDS_A_MINUTE + step.
Proof.
  unfold MILLISECONDS_A_MINUTE. intros Hc Hs.
  rewrite !Z.quot_div_nonneg by lia.
  replace (c + step * 60000 - start) with ((c - start) + step * 60000) by lia.
  apply Z.div_add. lia.
Qed.

(** With a positive step the loop ends: the cursor moves at least one
    minute further from [start] each round and stops beyond 180. *)
Lemma forward_scan_returns fuel : forall c sug log,
  0 < step -> start <= c ->
  (Z.to_nat (181 - (c - start) ÷ MILLISECONDS_A_MINUTE) < fuel)%nat ->
  (scan fuel (Some c) sug log).1 <> Diverge.
Proof.
  induction fuel as [|fuel IH]; intros c sug log Hpos Hc Hfuel; [lia|].
  rewrite forward_scan_step.
  destruct (Z.of_nat (length sug) <? m); [|discriminate].
  cbv zeta. destruct (valid_time _); [|discriminate].
  destruct (valid_time _); [|destruct (isBefore _ _); discriminate].
  destruct (isBefore _ _ || isAfter _ _); [discriminate|].
  destruct (ask _ _) as [busy|err]; [|discriminate].
  destruct (180 <? _) eqn:Hcap; [discriminate|].
  apply Z.ltb_ge in Hcap. rewrite quot_advance in Hcap by lia.
  apply IH; [lia| unfold MILLISECONDS_A_MINUTE; lia |].
  rewrite quot_advance by lia. lia.
Qed.

(** The call log only grows, and so does the list of suggestions. *)
Lemma forward_scan_prefix fuel : forall c sug log o log',
  scan fuel (Some c) sug log = (o, log') ->
  log `prefix_of` log' /\ forall res, o = Ok res -> sug `prefix_of` res.
Proof.
  induction fuel as [|fuel IH]; intros c sug log o log' Hrun.
  { inversion Hrun; subst. split; [done | discriminate]. }
  rewrite forward_scan_step in Hrun.
  destruct (Z.of_nat (length sug) <? m); cbv zeta in Hrun.
  2: { inversion Hrun; subst. split; [done|]. intros ? [= <-]. done. }
  destruct (valid_time _);
    [|inversion Hrun; subst; split; [done | discriminate]].
  destruct (valid_time _).
  2: { destruct (isBefore _ _); inversion Hrun; subst; (split; [done|]);
         [intros ? [= <-]; done | discriminate]. }
  destruct (isBefore _ _ || isAfter _ _).
  { inversion Hrun; subst. split; [done|]. intros ? [= <-]. done. }
  destruct (ask _ _) as [busy|err].
  2: { inversion Hrun; subst. split; [by apply prefix_app_r | discriminate]. }
  assert (Hsug : sug `prefix_of`
            (if is_empty (default [] busy)
             then sug ++ [format_HHmm E (c + step * MILLISECONDS_A_MINUTE)]
             else sug)).
  { destruct (is_empty _); [by apply prefix_app_r | done]. }
  destruct (180 <? _).
  - inversion Hrun; subst. split; [by apply prefix_app_r|].
    intros ? [= <-]. exact Hsug.
  - apply IH in Hrun as [Hlog Hres]. split.
    + etrans; [|exact Hlog]. by apply prefix_app_r.
    + intros res ->. etrans; [exact Hsug|]. by apply Hres.
Qed.

(** The list never grows beyond [maxSugs]. *)
Lemma forward_scan_length fuel : forall c sug log res log',
  Z.of_nat (length sug) <= m ->
  scan fuel (Some c) sug log = (Ok res, log') ->
  Z.of_nat (length res) <= m.
Proof.
  induction fuel as [|fuel IH]; intros c sug log res log' Hlen Hrun;
    [discriminate|].
  rewrite forward_scan_step in Hrun.
  destruct (Z.of_nat (length sug) <? m) eqn:Hlt; cbv zeta in Hrun;
    [apply Z.ltb_lt in Hlt | by inversion Hrun; subst].
  destruct (valid_time _); [|discriminate].
  destruct (valid_time _);
    [|destruct (isBefore _ _); [by inversion Hrun; subst | discriminate]].
  destruct (isBefore _ _ || isAfter _ _); [by inversion Hrun; subst|].
  destruct (ask _ _) as [busy|err]; [|discriminate].
  assert (Hlen' : Z.of_nat (length
            (if is_empty (default [] busy)
             then sug ++ [format_HHmm E (c + step * MILLISECONDS_A_MINUTE)]
             else sug)) <= m).
  { destruct (is_empty _); [rewrite length_app; simpl; lia | lia]. }
  destruct (180 <? _); [by inversion Hrun; subst | by eapply IH].
Qed.

(** When the list is full, the last call made is the query that found the
    last suggestion. *)
Lemma forward_scan_last fuel : forall c sug log res log',
  (Z.of_nat (length sug) = m ->
   exists s, last log = Some (query s) /\ last sug = Some (format_HHmm E s)) ->
  scan fuel (Some c) sug log = (Ok res, log') ->
  Z.of_nat (length res) = m ->
  exists s, last log' = Some (query s) /\ last res = Some (format_HHmm E s).
Proof.
  induction fuel as [|fuel IH]; intros c sug log res log' Hfull Hrun;
    [discriminate|].
  rewrite forward_scan_step in Hrun.
  destruct (Z.of_nat (length sug) <? m) eqn:Hlt; cbv zeta in Hrun;
    [apply Z.ltb_lt in Hlt | by inversion Hrun; subst].
  destruct (valid_time _); [|discriminate].
  destruct (valid_time _);
    [|destruct (isBefore _ _); [inversion Hrun; subst; lia | discriminate]].
  destruct (isBefore _ _ || isAfter _ _); [inversion Hrun; subst; lia|].
  destruct (ask _ _) as [busy|err]; [|discriminate].
  set (s := c + step * MILLISECONDS_A_MINUTE) in *.
  assert (Hfull' : Z.of_nat (length
            (if is_empty (default [] busy) then sug ++ [format_HHmm E s] else sug)) = m ->
          exists s0, last (log ++ [query s]) = Some (query s0) /\
                     last (if is_empty (default [] busy)
                           then sug ++ [format_HHmm E s] else sug)
                     = Some (format_HHmm E s0)).
  { destruct (is_empty _); [|lia]. intros _. exists s. by rewrite !last_snoc. }
  destruct (180 <? _); [by inversion Hrun; subst | by eapply IH].
Qed.

(** What the scan records: starts inside the working hours, a positive
    number of steps after [start] and at most one step beyond the cap, in
    the order they were found. *)
Lemma forward_scan_starts ws we fuel : forall k0 starts log res log',
  workStart = Some ws -> workEnd = Some we ->
  0 < step -> 0 <= k0 -> k0 * step <= 180 ->
  let c := start + k0 * step * MILLISECONDS_A_MINUTE in
  let recorded s :=
    ws <= s /\ s + dur * MILLISECONDS_A_MINUTE <= we /\
    s <= start + (180 + step) * MILLISECONDS_A_MINUTE /\
    exists k, 0 < k /\ s = start + k * step * MILLISECONDS_A_MINUTE in
  Forall recorded starts -> Forall (fun s => s <= c) starts ->
  StronglySorted Z.le starts ->
  scan fuel (Some c) (format_HHmm E <$> starts) log = (Ok res, log') ->
  exists starts', res = format_HHmm E <$> starts' /\
                  Forall recorded starts' /\ StronglySorted Z.le starts'.
Proof.
  intros k0 starts log res log' HworkStart HworkEnd.
  revert k0 starts log res log'.
  induction fuel as [|fuel IH];
    intros k0 starts log res log' Hpos Hk0 Hcap c recorded Hrec Hle Hsort Hrun;
    [discriminate|].
  rewrite forward_scan_step, HworkStart, HworkEnd in Hrun.
  destruct (Z.of_nat _ <? m); cbv zeta in Hrun;
    [|inversion Hrun; subst; eauto].
  destruct (valid_time _); [|discriminate].
  cbn [isBefore isAfter] in Hrun.
  destruct (valid_time _);
    [|destruct (_ <? ws); [inversion Hrun; subst; eauto | discriminate]].
  destruct (_ <? ws) eqn:Hws; [inversion Hrun; subst; eauto|].
  destruct (we <? _) eqn:Hwe; [inversion Hrun; subst; eauto|].
  cbn [orb] in Hrun. apply Z.ltb_ge in Hws, Hwe.
  destruct (ask _ _) as [busy|err]; [|discriminate].
  fold c in Hrun, Hws, Hwe.
  set (s := c + step * MILLISECONDS_A_MINUTE) in *.
  assert (Hs : s = start + (k0 + 1) * step * MILLISECONDS_A_MINUTE)
    by (unfold s, c; lia).
  assert (Hnew : exists starts',
            (if is_empty (default [] busy)
             then (format_HHmm E <$> starts) ++ [format_HHmm E s]
             else format_HHmm E <$> starts) = format_HHmm E <$> starts' /\
            Forall recorded starts' /\ Forall (fun x => x <= s) starts' /\
            StronglySorted Z.le starts').
  { assert (Hle' : Forall (fun x => x <= s) starts).
    { eapply Forall_impl; [exact Hle|]. unfold s, MILLISECONDS_A_MINUTE.
      intros x Hx. cbv beta in Hx. nia. }
    destruct (is_empty _); [|by exists starts].
    exists (starts ++ [s]). rewrite fmap_app. split; [done|].
    split; [|split].
    - apply Forall_app. split; [done|]. constructor; [|done].
      split; [done|]. split; [done|]. split.
      + rewrite Hs. unfold MILLISECONDS_A_MINUTE. nia.
      + exists (k0 + 1). split; [lia | done].
    - apply Forall_app. split; [done|]. constructor; [lia | done].
    - apply StronglySorted_app_2; [|done|repeat constructor].
      intros x1 x2 Hx1 Hx2. apply list_elem_of_singleton in Hx2 as ->.
      rewrite Forall_forall in Hle'. by apply Hle'. }
  destruct Hnew as (starts' & Heq & Hrec' & Hle' & Hsort').
  rewrite Heq in Hrun.
  destruct (180 <? _) eqn:Hover; [inversion Hrun; subst; eauto|].
  apply Z.ltb_ge in Hover. rewrite Hs in Hover.
  replace (start + (k0 + 1) * step * MILLISECONDS_A_MINUTE - start)
    with ((k0 + 1) * step * MILLISECONDS_A_MINUTE) in Hover by lia.
  rewrite Z.quot_mul in Hover by done.
  rewrite Hs in Hrun, Hle'.
  rewrite <- HworkStart, <- HworkEnd in Hrun.
  by eapply (IH (k0 + 1) starts' _ res log'); [lia | lia | lia | | | |].
  
Qed.
End Scan.

(** ** Rejected calls abort the computation *)

Section Abort.
Context (E : environment).

Lemma aborts_ret {A} (x : A) : aborts_on_rejection E (ret x).
Proof.
  intros log o log' [= <- <-]. split; [done|].
  intros n q Hq Hn _. apply lookup_lt_Some in Hq. lia.
Qed.

Lemma aborts_diverge {A} : aborts_on_rejection E (@diverge A).
Proof.
  intros log o log' [= <- <-]. split; [done|].
  intros n q Hq Hn _. apply lookup_lt_Some in Hq. lia.
Qed.

Lemma aborts_lift {A} (r : result A) : aborts_on_rejection E (lift r).
Proof.
  intros log o log' Hrun. unfold lift in Hrun.
  assert (log' = log) as -> by (destruct r; congruence).
  split; [done|]. intros n q Hq Hn _. apply lookup_lt_Some in Hq. lia.
Qed.

Lemma aborts_bind {A B} (c : M A) (k : A -> M B) :
  aborts_on_rejection E c -> (forall x, aborts_on_rejection E (k x)) ->
  aborts_on_rejection E (bind c k).
Proof.
  intros Hc Hk log o log' Hrun. unfold bind in Hrun.
  destruct (c log) as [o1 log1] eqn:Hc1.
  destruct (Hc _ _ _ Hc1) as [Hpre1 Hrej1].
  destruct o1 as [x|e|].
  - destruct (Hk x _ _ _ Hrun) as [Hpre2 Hrej2].
    split; [by etrans|]. intros n q Hq Hn Hr.
    destruct (decide (n < length log1)%nat) as [Hlt|Hge].
    + destruct (Hrej1 n q) as [e He]; [|done|done|discriminate].
      destruct Hpre2 as [rest ->]. by rewrite lookup_app_l in Hq.
    + apply (Hrej2 n q); [done | lia | done].
  - inversion Hrun; subst. split; [done | eauto].
  - inversion Hrun; subst. split; [done|]. intros n q Hq Hn Hr.
    destruct (Hrej1 n q) as [e He]; [done..|discriminate].
Qed.

Lemma aborts_freebusy calendarId s e tz :
  aborts_on_rejection E (freebusy E calendarId s e tz).
Proof.
  unfold freebusy. apply aborts_bind; [apply aborts_lift|]. intros timeMin.
  apply aborts_bind; [apply aborts_lift|]. intros timeMax log o log' Hrun.
  assert (log' = log ++ [FreeBusyQuery calendarId timeMin timeMax tz]) as ->
    by (destruct (freebusy_query _ _ _ _ _ _); congruence).
  split; [by apply prefix_app_r|]. intros n q Hq Hn Hr.
  assert (n = length log) as ->.
  { apply lookup_lt_Some in Hq. rewrite length_app in Hq. simpl in Hq. lia. }
  rewrite list_lookup_middle in Hq by done. injection Hq as <-.
  simpl in Hr. destruct (freebusy_query _ _ _ _ _ _); [discriminate|].
  inversion Hrun. eauto.
Qed.

Lemma aborts_forward_scan a start workStart workEnd fuel : forall cursor sug,
  aborts_on_rejection E
    (Availability.forward_scan E a start workStart workEnd fuel cursor sug).
Proof.
  induction fuel as [|fuel IH]; intros cursor sug; cbn [Availability.forward_scan];
    [apply aborts_diverge|].
  destruct (lt_num _ _ _); [|apply aborts_ret].
  destruct (isBefore _ _ || isAfter _ _); [apply aborts_ret|].
  apply aborts_bind; [apply aborts_freebusy|]. intros b2.
  destruct (gt_180 _); [apply aborts_ret | apply IH].
Qed.

Lemma aborts_block fuel a : aborts_on_rejection E (Availability.block E fuel a).
Proof.
  unfold Availability.block.
  destruct (_ || _); [apply aborts_ret|].
  apply aborts_bind; [apply aborts_lift|]. intros auth.
  apply aborts_bind; [apply aborts_lift|]. intros _.
  apply aborts_bind; [apply aborts_lift|]. intros start.
  apply aborts_bind; [apply aborts_freebusy|]. intros busy.
  destruct (is_empty busy); [apply aborts_ret|].
  apply aborts_bind; [apply aborts_lift|]. intros workStart.
  apply aborts_bind; [apply aborts_lift|]. intros workEnd.
  apply aborts_bind; [apply aborts_forward_scan|]. intros sug.
  apply aborts_ret.
Qed.
End Abort.

(** C8: if the Calendar Service rejects any call that POST /availability
    makes, the primary query or a candidate query, the answer is
    500 [{error: "availability_failed"}]: nothing collected before the
    rejection is returned. *)
Theorem C8_rejected_query_aborts_request
    (E : environment) (fuel : nat) (body : gmap string jval) (log : list call)
    (r : option response) (log' : list call) (n : nat) (q : call) :
  Availability.handler E fuel body log = (r, log') ->
  log' !! n = Some q -> (length log <= n)%nat -> rejected E n q = true ->
  r = Some {| status := 500; json := ErrorBody "availability_failed" |}.
Proof.
  unfold Availability.handler, try_catch. intros Hrun Hq Hn Hr.
  destruct (Availability.block _ _ _ _) as [o log1] eqn:Hblock.
  destruct (aborts_block E _ _ _ _ _ Hblock) as [_ Hrej].
  assert (log1 = log') as -> by (destruct o; congruence).
  destruct (Hrej n q Hq Hn Hr) as [e ->]. congruence.
Qed.

(** ** The availability handler, stage by stage *)

(** Rewrite with the equations at hand, then run the handlers' plumbing. *)
Ltac rew :=
  repeat match goal with
         | H : ?x = _ |- context [?x] => rewrite H
         end.

Ltac run_handler :=
  unfold Availability.handler, Availability.block, Book.handler, Book.block,
    try_catch, freebusy, insert, add, bind, lift, ret, toISOString;
  repeat (cbv beta iota zeta; cbn [negb orb is_empty]; rew);
  try reflexivity.

Section Handler.
Context (E : environment) (fuel : nat) (body : gmap string jval) (log : list call).

Local Abbreviation a := (Availability.destructure E body).
Local Abbreviation failed :=
  {| status := 500; json := ErrorBody "availability_failed" |}.

(** Either the handler answers before the loop, with something else than a
    list of alternatives, or it gets to the loop and answers what the loop
    finds. *)
Lemma handler_cases :
  (exists r log', Availability.handler E fuel body log = (Some r, log') /\
                  forall d sug, json r = Availability d sug -> d = true /\ sug = [])
  \/ (exists start dur workStart workEnd,
        dayjs_tz E (datetime (Availability.date a) (Availability.time a))
                 (Availability.tz a) = Return (Some start) /\
        to_number E (Availability.durationMin a) = Some dur /\
        dayjs_tz E (datetime (Availability.date a) (Some (Availability.horarioInicio a)))
                 (Availability.tz a) = Return workStart /\
        dayjs_tz E (datetime (Availability.date a) (Some (Availability.horarioFin a)))
                 (Availability.tz a) = Return workEnd /\
        Availability.handler E fuel body log =
          try_catch
            (let* sug := Availability.forward_scan E a (Some start) workStart workEnd
                           fuel (Some start) [] in
             ret {| status := 200; json := Availability false sug |})
            failed
            (log ++ [FreeBusyQuery (Availability.calendarId a) start
                       (start + dur * MILLISECONDS_A_MINUTE) (Availability.tz a)])).
Proof.
  destruct (negb (truthy (Availability.calendarId a))
            || negb (truthy (Availability.date a))
            || negb (truthy (Availability.time a))) eqn:Hmissing;
    [left; eexists _, _; split; [run_handler | by intros d sug [= <- <-]]|].
  destruct (getOAuth2Client E) as [auth|e] eqn:Hclient;
    [|left; eexists _, _; split; [run_handler | by intros d sug [= <- <-]]].
  destruct (ensureAuthed auth) as [[]|e] eqn:Hauth;
    [|left; eexists _, _; split; [run_handler | by intros d sug [= <- <-]]].
  destruct (dayjs_tz E (datetime (Availability.date a) (Availability.time a))
                     (Availability.tz a)) as [[start|]|e] eqn:Hstart;
    [|left; eexists _, _; split; [run_handler | by intros d sug [= <- <-]]..].
  destruct (to_number E (Availability.durationMin a)) as [dur|] eqn:Hdur;
    [|left; eexists _, _; split; [run_handler | by intros d sug [= <- <-]]].
  destruct (valid_time (start + dur * MILLISECONDS_A_MINUTE)) eqn:Hvalid;
    [|left; eexists _, _; split; [run_handler | by intros d sug [= <- <-]]].
  destruct (freebusy_query E (length log) (Availability.calendarId a) start
              (start + dur * MILLISECONDS_A_MINUTE) (Availability.tz a))
    as [busy|e] eqn:Hbusy;
    [|left; eexists _, _; split; [run_handler | by intros d sug [= <- <-]]].
  destruct (is_empty (default [] busy)) eqn:Hempty;
    [left; eexists _, _; split; [run_handler | by intros d sug [= <- <-]]|].
  destruct (dayjs_tz E (datetime (Availability.date a)
                          (Some (Availability.horarioInicio a))) (Availability.tz a))
    as [workStart|e] eqn:HworkStart;
    [|left; eexists _, _; split; [run_handler | by intros d sug [= <- <-]]].
  destruct (dayjs_tz E (datetime (Availability.date a)
                          (Some (Availability.horarioFin a))) (Availability.tz a))
    as [workEnd|e] eqn:HworkEnd;
    [|left; eexists _, _; split; [run_handler | by intros d sug [= <- <-]]].
  right. exists start, dur, workStart, workEnd.
  do 4 (split; [reflexivity|]). run_handler.
Qed.
End Handler.

(** ** Before the loop *)

Section BeforeTheLoop.
Context (E : environment) (fuel : nat).

(** A free primary slot is answered at once, after one query, whatever
    the remaining arguments are. *)
Lemma block_primary_free (a : Availability.args) log auth start dur busy :
  truthy (Availability.calendarId a) = true ->
  truthy (Availability.date a) = true ->
  truthy (Availability.time a) = true ->
  getOAuth2Client E = Return auth ->
  ensureAuthed auth = Return tt ->
  dayjs_tz E (datetime (Availability.date a) (Availability.time a))
           (Availability.tz a) = Return (Some start) ->
  to_number E (Availability.durationMin a) = Some dur ->
  valid_time (start + dur * MILLISECONDS_A_MINUTE) = true ->
  freebusy_query E (length log) (Availability.calendarId a) start
    (start + dur * MILLISECONDS_A_MINUTE) (Availability.tz a) = Return busy ->
  default [] busy = [] ->
  try_catch (Availability.block E fuel a)
            {| status := 500; json := ErrorBody "availability_failed" |} log
  = (Some {| status := 200; json := Availability true [] |},
     log ++ [FreeBusyQuery (Availability.calendarId a) start
               (start + dur * MILLISECONDS_A_MINUTE) (Availability.tz a)]).
Proof.
  intros Hc Hd Ht Hclient Hauth Hstart Hdur Hvalid Hbusy Hempty. run_handler.
Qed.
End BeforeTheLoop.

(** C1: when the request is complete, the process holds a refresh token, the
    primary slot can be built (its start can be read and its end is a valid
    date) and the free/busy query for it reports no busy interval,
    POST /availability answers [{disponible: true, sugerencias: []}] and that
    query is the only call made. *)
Theorem C1_primary_free_short_circuit
    (E : environment) (fuel : nat) (body : gmap string jval) (log : list call)
    (auth : OAuth2Client) (start dur : Z) (busy : option (list (Z * Z))) :
  let a := Availability.destructure E body in
  truthy (Availability.calendarId a) = true ->
  truthy (Availability.date a) = true ->
  truthy (Availability.time a) = true ->
  getOAuth2Client E = Return auth ->
  ensureAuthed auth = Return tt ->
  dayjs_tz E (datetime (Availability.date a) (Availability.time a))
           (Availability.tz a) = Return (Some start) ->
  to_number E (Availability.durationMin a) = Some dur ->
  valid_time (start + dur * MILLISECONDS_A_MINUTE) = true ->
  freebusy_query E (length log) (Availability.calendarId a) start
    (start + dur * MILLISECONDS_A_MINUTE) (Availability.tz a) = Return busy ->
  default [] busy = [] ->
  Availability.handler E fuel body log
  = (Some {| status := 200; json := Availability true [] |},
     log ++ [FreeBusyQuery (Availability.calendarId a) start
               (start + dur * MILLISECONDS_A_MINUTE) (Availability.tz a)]).
Proof. intros a. apply block_primary_free. Qed.

(** C10: the working hours bind the alternatives only. Whatever
    [horarioInicio] and [horarioFin] a request carries (none, any value, even
    hours that exclude the primary slot), a primary slot that can be built
    (its end is a valid date) and that the calendar reports free is answered
    [{disponible: true, sugerencias: []}] after the one query. *)
Theorem C10_working_hours_do_not_bind_primary_slot
    (E : environment) (fuel : nat) (body body' : gmap string jval) (log : list call)
    (auth : OAuth2Client) (start dur : Z) (busy : option (list (Z * Z))) :
  let a := Availability.destructure E body in
  (forall key : string,
     key <> "horarioInicio" -> key <> "horarioFin" -> body' !! key = body !! key) ->
  truthy (Availability.calendarId a) = true ->
  truthy (Availability.date a) = true ->
  truthy (Availability.time a) = true ->
  getOAuth2Client E = Return auth ->
  ensureAuthed auth = Return tt ->
  dayjs_tz E (datetime (Availability.date a) (Availability.time a))
           (Availability.tz a) = Return (Some start) ->
  to_number E (Availability.durationMin a) = Some dur ->
  valid_time (start + dur * MILLISECONDS_A_MINUTE) = true ->
  freebusy_query E (length log) (Availability.calendarId a) start
    (start + dur * MILLISECONDS_A_MINUTE) (Availability.tz a) = Return busy ->
  default [] busy = [] ->
  Availability.handler E fuel body' log
  = (Some {| status := 200; json := Availability true [] |},
     log ++ [FreeBusyQuery (Availability.calendarId a) start
               (start + dur * MILLISECONDS_A_MINUTE) (Availability.tz a)]).
Proof.
  intros a Hsame.
  assert (Hc : Availability.calendarId (Availability.destructure E body')
               = Availability.calendarId a) by (by apply Hsame).
  assert (Hd : Availability.date (Availability.destructure E body')
               = Availability.date a) by (by apply Hsame).
  assert (Ht : Availability.time (Availability.destructure E body')
               = Availability.time a) by (by apply Hsame).
  assert (Hz : Availability.tz (Availability.destructure E body')
               = Availability.tz a) by (simpl; by rewrite Hsame).
  assert (Hm : Availability.durationMin (Availability.destructure E body')
               = Availability.durationMin a) by (simpl; by rewrite Hsame).
  rewrite <- Hc, <- Hd, <- Ht, <- Hz, <- Hm. apply block_primary_free.
Qed.

(** C7: a request in which [calendarId], [date] or [time] is missing (or
    falsy) is answered 400 [{error: "missing_fields"}] and the call log is left
    as it was: no call is made, and the credentials are not even looked at. *)
Theorem C7_missing_fields_rejected_first
    (E : environment) (fuel : nat) (body : gmap string jval) (log : list call) :
  truthy (body !! "calendarId") = false \/
  truthy (body !! "date") = false \/
  truthy (body !! "time") = false ->
  Availability.handler E fuel body log
  = (Some {| status := 400; json := ErrorBody "missing_fields" |}, log).
Proof.
  intros Hmissing. unfold Availability.handler, Availability.block, try_catch.
  cbn [Availability.calendarId Availability.date Availability.time
       Availability.destructure].
  assert (negb (truthy (body !! "calendarId")) || negb (truthy (body !! "date"))
          || negb (truthy (body !! "time")) = true) as ->; [|reflexivity].
  destruct Hmissing as [-> | [-> | ->]];
    [ reflexivity | by rewrite orb_true_r | by rewrite orb_true_r ].
Qed.

(** C6, as amended: for a request to POST /availability or POST /book that
    carries [calendarId], [date] and [time], made when the OAuth2 client holds
    no refresh token, [ensureAuthed] raises the authentication error, the
    [try] block stops on it before any Calendar Service call, and the answer
    is 500 (with the endpoint's error body). *)
Theorem C6_no_refresh_token_fails_before_any_call
    (E : environment) (fuel : nat) (body : gmap string jval) (log : list call)
    (auth : OAuth2Client) :
  truthy (body !! "calendarId") = true ->
  truthy (body !! "date") = true ->
  truthy (body !! "time") = true ->
  getOAuth2Client E = Return auth ->
  truthy (credentials auth !! "refresh_token") = false ->
  ensureAuthed auth = Raise AuthenticationError /\
  Availability.block E fuel (Availability.destructure E body) log
    = (Throw AuthenticationError, log) /\
  Availability.handler E fuel body log
    = (Some {| status := 500; json := ErrorBody "availability_failed" |}, log) /\
  Book.block E (Book.destructure E body) log = (Throw AuthenticationError, log) /\
  Book.handler E body log
    = (Some {| status := 500; json := NotBooked "booking_failed" |}, log).
Proof.
  intros Hc Hd Ht Hclient Htoken.
  assert (Hauth : ensureAuthed auth = Raise AuthenticationError)
    by (unfold ensureAuthed; by rewrite Htoken).
  split; [exact Hauth|].
  unfold Availability.handler, Book.handler, try_catch,
    Availability.block, Book.block.
  cbn [Availability.calendarId Availability.date Availability.time
       Availability.destructure Book.calendarId Book.date Book.time
       Book.destructure].
  rewrite Hc, Hd, Ht. cbn [negb orb]. unfold bind, lift.
  rewrite Hclient, Hauth. done.
Qed.

(** ** The booking handler *)

Section Booking.
Context (E : environment) (body : gmap string jval) (log : list call).

Local Abbreviation a := (Book.destructure E body).

(** The booking handler answers without a call, or makes one call, an event
    insertion, and answers by what the service says to it. *)
Lemma book_cases :
  (exists r, Book.handler E body log = (Some r, log))
  \/ (exists q, is_query q = false /\
        ((exists id, created E (length log) q = Some id /\
            Book.handler E body log
            = (Some {| status := 200; json := Booked id |}, log ++ [q]))
         \/ (created E (length log) q = None /\
             Book.handler E body log
             = (Some {| status := 500; json := NotBooked "booking_failed" |},
                log ++ [q])))).
Proof.
  destruct (negb (truthy (Book.calendarId a)) || negb (truthy (Book.date a))
            || negb (truthy (Book.time a))) eqn:Hmissing;
    [left; eexists; run_handler|].
  destruct (getOAuth2Client E) as [auth|e] eqn:Hclient;
    [|left; eexists; run_handler].
  destruct (ensureAuthed auth) as [[]|e] eqn:Hauth;
    [|left; eexists; run_handler].
  destruct (dayjs_tz E (datetime (Book.date a) (Book.time a)) (Book.tz a))
    as [[start|]|e] eqn:Hstart;
    [|left; eexists; run_handler..].
  destruct (to_number E (Book.durationMin a)) as [dur|] eqn:Hdur;
    [|left; eexists; run_handler].
  destruct (valid_time (start + dur * MILLISECONDS_A_MINUTE)) eqn:Hvalid;
    [|left; eexists; run_handler].
  right.
  exists (EventsInsert (Book.calendarId a) (Book.summary a) (Book.description a)
            start (start + dur * MILLISECONDS_A_MINUTE) (Book.tz a)).
  split; [reflexivity|]. cbn [created].
  destruct (events_insert E (length log) (Book.calendarId a) (Book.summary a)
              (Book.description a) start (start + dur * MILLISECONDS_A_MINUTE)
              (Book.tz a)) as [id|e] eqn:Hinsert.
  - left. exists id. split; [reflexivity|]. run_handler.
  - right. split; [reflexivity|]. run_handler.
Qed.
End Booking.

(** C9: POST /book makes no availability check. Its answer and its calls are
    the same against any busy state of the calendar; none of the calls it
    makes is a free/busy query; and whenever the event insertion it makes is
    accepted with an id, it answers [{ok: true, eventId: id}]. *)
Theorem C9_booking_makes_no_availability_check
    (E : environment) (body : gmap string jval) (log : list call) :
  (forall f, Book.handler (with_freebusy E f) body log = Book.handler E body log)
  /\ forall r log', Book.handler E body log = (r, log') ->
       (forall (n : nat) (q : call),
          log' !! n = Some q -> (length log <= n)%nat -> is_query q = false)
       /\ (forall (n : nat) (q : call) (id : string),
             log' !! n = Some q -> (length log <= n)%nat ->
             created E n q = Some id ->
             r = Some {| status := 200; json := Booked id |}).
Proof.
  split; [reflexivity|]. intros r log' Hrun.
  assert (Hone : forall (q0 : call) (n : nat) (q : call),
            (log ++ [q0]) !! n = Some q -> (length log <= n)%nat ->
            n = length log /\ q = q0).
  { intros q0 n q Hq Hn.
    assert (n = length log) as ->.
    { apply lookup_lt_Some in Hq. rewrite length_app in Hq. simpl in Hq. lia. }
    rewrite list_lookup_middle in Hq by done. by injection Hq as <-. }
  destruct (book_cases E body log)
    as [[r0 H0] | (q0 & Hq0 & [(id0 & Hid & H0) | [Hnone H0]])];
    rewrite H0 in Hrun; injection Hrun as <- <-.
  - split; [intros n q Hq Hn | intros n q id Hq Hn];
      apply lookup_lt_Some in Hq; lia.
  - split.
    + intros n q Hq Hn. by destruct (Hone _ _ _ Hq Hn) as [_ ->].
    + intros n q id Hq Hn Hid'. destruct (Hone _ _ _ Hq Hn) as [-> ->]. congruence.
  - split.
    + intros n q Hq Hn. by destruct (Hone _ _ _ Hq Hn) as [_ ->].
    + intros n q id Hq Hn Hid'. destruct (Hone _ _ _ Hq Hn) as [-> ->]. congruence.
Qed.

(** ** What the forward scan answers *)

(** C3: for a request with numeric fields, a positive [stepMin], a
    non-negative [maxSugs] and readable working hours, POST /availability
    answers, and when the answer comes from the forward scan its
    [sugerencias] are the formatted starts of slots that are in
    non-decreasing order, each a positive number of steps after the primary
    start, each with its whole duration inside the working hours, and there are
    at most [maxSugs] of them. *)
Theorem C3_suggestions_ordered_spaced_within_hours
    (E : environment) (fuel : nat) (body : gmap string jval) (log : list call)
    (start workStart workEnd step dur m : Z) :
  let a := Availability.destructure E body in
  dayjs_tz E (datetime (Availability.date a) (Availability.time a))
           (Availability.tz a) = Return (Some start) ->
  dayjs_tz E (datetime (Availability.date a) (Some (Availability.horarioInicio a)))
           (Availability.tz a) = Return (Some workStart) ->
  dayjs_tz E (datetime (Availability.date a) (Some (Availability.horarioFin a)))
           (Availability.tz a) = Return (Some workEnd) ->
  to_number E (Availability.durationMin a) = Some dur ->
  to_number E (Availability.stepMin a) = Some step -> 0 < step ->
  to_number E (Availability.maxSugs a) = Some m -> 0 <= m ->
  (181 < fuel)%nat ->
  exists r log',
    Availability.handler E fuel body log = (Some r, log') /\
    forall sugerencias, json r = Availability false sugerencias ->
      exists starts : list Z,
        sugerencias = format_HHmm E <$> starts /\
        StronglySorted Z.le starts /\
        Forall (fun s =>
                  (exists k, 0 < k /\ s = start + k * step * MILLISECONDS_A_MINUTE) /\
                  workStart <= s /\ s + dur * MILLISECONDS_A_MINUTE <= workEnd)
               starts /\
        Z.of_nat (length sugerencias) <= m.
Proof.
  intros a Hstart HworkStart HworkEnd Hdur Hstep Hpos Hmax Hm Hfuel.
  destruct (handler_cases E fuel body log)
    as [(r & log' & Hrun & Hother)
       | (start0 & dur0 & ws0 & we0 & Hstart0 & Hdur0 & Hws0 & Hwe0 & Hrun)].
  { exists r, log'. split; [done|]. intros sug Hsug.
    by destruct (Hother _ _ Hsug). }
  fold a in Hstart0, Hdur0, Hws0, Hwe0, Hrun.
  assert (start0 = start) as -> by congruence.
  assert (dur0 = dur) as -> by congruence.
  assert (ws0 = Some workStart) as -> by congruence.
  assert (we0 = Some workEnd) as -> by congruence.
  rewrite Hrun. unfold try_catch, bind, ret.
  set (log0 := log ++ _).
  destruct (Availability.forward_scan E a (Some start) (Some workStart)
              (Some workEnd) fuel (Some start) [] log0) as [o log1] eqn:Hscan.
  pose proof (forward_scan_returns E a start (Some workStart) (Some workEnd)
                step dur m Hstep Hdur Hmax fuel start [] log0 Hpos) as Htotal.
  rewrite Hscan in Htotal.
  destruct o as [res|e|].
  - eexists _, _. split; [reflexivity|]. intros sug [= <-].
    replace (Some start) with (Some (start + 0 * step * MILLISECONDS_A_MINUTE))
      in Hscan at 2 by (f_equal; lia).
    change (@nil string) with (format_HHmm E <$> []) in Hscan.
    destruct (forward_scan_starts E a start (Some workStart) (Some workEnd)
                step dur m Hstep Hdur Hmax workStart workEnd fuel 0 [] log0 res log1)
      as (starts & -> & Hrec & Hsort); try done; try lia.
    { constructor. }
    exists starts. split; [done|]. split; [done|]. split.
    + eapply Forall_impl; [exact Hrec|]. cbv beta. intros s (? & ? & _ & ?). done.
    + eapply (forward_scan_length E a start (Some workStart) (Some workEnd)
                step dur m Hstep Hdur Hmax fuel); [|exact Hscan]. simpl. lia.
  - eexists _, _. split; [reflexivity|]. discriminate.
  - exfalso. apply Htotal; [lia | | done].
    replace ((start - start) ÷ MILLISECONDS_A_MINUTE) with 0
      by (by rewrite Z.sub_diag). lia.
Qed.

(** C5, as amended: the field the handler reads is [maxSugs]. For a request
    whose [maxSugs] is the number k (k = 3 when the field is absent), with a
    positive [stepMin], the handler answers with at most k suggestions, and
    when it has collected k of them (k > 0) the last call it made is the query
    that found the last one: the scan stopped there. *)
Theorem C5_maxSugs_bounds_the_suggestions
    (E : environment) (fuel : nat) (body : gmap string jval) (log : list call)
    (k step : Z) :
  let a := Availability.destructure E body in
  body !! "maxSugs" = Some (JNum k) \/ (body !! "maxSugs" = None /\ k = 3) ->
  0 <= k ->
  to_number E (Availability.stepMin a) = Some step -> 0 < step ->
  (181 < fuel)%nat ->
  exists r log',
    Availability.handler E fuel body log = (Some r, log') /\
    forall disponible sugerencias,
      json r = Availability disponible sugerencias ->
      Z.of_nat (length sugerencias) <= k /\
      (0 < k -> Z.of_nat (length sugerencias) = k ->
       exists s e,
         last log' = Some (FreeBusyQuery (Availability.calendarId a) s e
                             (Availability.tz a)) /\
         last sugerencias = Some (format_HHmm E s)).
Proof.
  intros a Hfield Hk Hstep Hpos Hfuel.
  assert (Hmax : to_number E (Availability.maxSugs a) = Some k).
  { cbn [a Availability.maxSugs Availability.destructure].
    by destruct Hfield as [-> | [-> ->]]. }
  destruct (handler_cases E fuel body log)
    as [(r & log' & Hrun & Hother)
       | (start & dur & workStart & workEnd & _ & Hdur & _ & _ & Hrun)].
  { exists r, log'. split; [done|]. intros d sug Hsug.
    destruct (Hother _ _ Hsug) as [_ ->]. simpl. split; lia. }
  fold a in Hdur, Hrun. rewrite Hrun. unfold try_catch, bind, ret.
  set (log0 := log ++ _).
  destruct (Availability.forward_scan E a (Some start) workStart workEnd fuel
              (Some start) [] log0) as [o log1] eqn:Hscan.
  pose proof (forward_scan_returns E a start workStart workEnd
                step dur k Hstep Hdur Hmax fuel start [] log0 Hpos) as Htotal.
  rewrite Hscan in Htotal.
  destruct o as [res|e|].
  - eexists _, _. split; [reflexivity|]. intros d sug [= <- <-]. split.
    + eapply (forward_scan_length E a start workStart workEnd
                step dur k Hstep Hdur Hmax fuel); [|exact Hscan]. simpl. lia.
    + intros Hk' Hfull.
      destruct (forward_scan_last E a start workStart workEnd
                  step dur k Hstep Hdur Hmax fuel start [] log0 res log1)
        as (s & Hlast & Hres); [simpl; lia | done | done |].
      by exists s, (s + dur * MILLISECONDS_A_MINUTE).
  - eexists _, _. split; [reflexivity|]. discriminate.
  - exfalso. apply Htotal; [lia | | done].
    replace ((start - start) ÷ MILLISECONDS_A_MINUTE) with 0
      by (by rewrite Z.sub_diag). lia.
Qed.

(** C4: in the forward scan, with room left for a suggestion and a candidate
    whose start and end are valid dates, a candidate that starts before
    [workStart] or ends after [workEnd] ends the loop on the spot: the list
    is returned as it is and no call is made. A candidate that starts at or
    after [workStart] and ends exactly at [workEnd] is queried: the query is
    the next call whatever the service answers; when the service answers, the
    loop goes on (or stops at the cap) with the candidate added to the list
    exactly when it was reported free, so that every list the scan returns
    has it, the scan does return or raise when the step is positive, and a
    free candidate that fills the list is returned at once. *)
Theorem C4_working_hours_boundary
    (E : environment) (a : Availability.args) (start workStart workEnd : Z)
    (step dur m : Z) (fuel : nat) (cursor : Z) (sug : list string)
    (log : list call) :
  let s := cursor + step * MILLISECONDS_A_MINUTE in
  let e := s + dur * MILLISECONDS_A_MINUTE in
  let scan := Availability.forward_scan E a (Some start)
                (Some workStart) (Some workEnd) in
  let q := FreeBusyQuery (Availability.calendarId a) s e (Availability.tz a) in
  to_number E (Availability.stepMin a) = Some step ->
  to_number E (Availability.durationMin a) = Some dur ->
  to_number E (Availability.maxSugs a) = Some m ->
  Z.of_nat (length sug) < m ->
  valid_time s = true -> valid_time e = true ->
  (s < workStart \/ workEnd < e ->
   scan (S fuel) (Some cursor) sug log = (Ok sug, log))
  /\ (workStart <= s -> e = workEnd ->
      (forall err,
         freebusy_query E (length log) (Availability.calendarId a) s e
           (Availability.tz a) = Raise err ->
         scan (S fuel) (Some cursor) sug log = (Throw err, log ++ [q]))
      /\ (forall busy,
            freebusy_query E (length log) (Availability.calendarId a) s e
              (Availability.tz a) = Return busy ->
            let sug' := if is_empty (default [] busy)
                        then sug ++ [format_HHmm E s] else sug in
            scan (S fuel) (Some cursor) sug log
            = (if 180 <? (s - start) ÷ MILLISECONDS_A_MINUTE
               then (Ok sug', log ++ [q])
               else scan fuel (Some s) sug' (log ++ [q]))
            /\ (exists o log',
                  scan (S fuel) (Some cursor) sug log = (o, log') /\
                  (log ++ [q]) `prefix_of` log' /\
                  (forall res, o = Ok res -> sug' `prefix_of` res) /\
                  (0 < step -> start <= cursor ->
                   (Z.to_nat (181 - (cursor - start) ÷ MILLISECONDS_A_MINUTE)
                    < S fuel)%nat ->
                   o <> Diverge))
            /\ (default [] busy = [] -> Z.of_nat (length sug) + 1 = m ->
                (0 < fuel)%nat ->
                scan (S fuel) (Some cursor) sug log
                = (Ok (sug ++ [format_HHmm E s]), log ++ [q])))).
Proof.
  intros s e scan q Hstep Hdur Hmax Hroom Hs He.
  assert (Hlt : (Z.of_nat (length sug) <? m) = true) by by apply Z.ltb_lt.
  assert (Heq : scan (S fuel) (Some cursor) sug log =
                if (s <? workStart) || (workEnd <? e) then (Ok sug, log)
                else match freebusy_query E (length log) (Availability.calendarId a)
                             s e (Availability.tz a) with
                     | Raise err => (Throw err, log ++ [q])
                     | Return busy =>
                       if 180 <? (s - start) ÷ MILLISECONDS_A_MINUTE
                       then (Ok (if is_empty (default [] busy)
                                 then sug ++ [format_HHmm E s] else sug),
                             log ++ [q])
                       else scan fuel (Some s)
                              (if is_empty (default [] busy)
                               then sug ++ [format_HHmm E s] else sug)
                              (log ++ [q])
                     end).
  { unfold scan.
    rewrite (forward_scan_step E a start _ _ step dur m Hstep Hdur Hmax), Hlt.
    cbv zeta. fold s. fold e. rewrite Hs, He. reflexivity. }
  split.
  - intros Hout. rewrite Heq.
    destruct Hout as [Hbefore | Hafter].
    + apply Z.ltb_lt in Hbefore. by rewrite Hbefore.
    + apply Z.ltb_lt in Hafter. rewrite Hafter. by rewrite orb_true_r.
  - intros Hin Hend.
    assert ((s <? workStart) = false) as Hin' by (apply Z.ltb_ge; lia).
    assert ((workEnd <? e) = false) as Hend' by (apply Z.ltb_ge; lia).
    rewrite Hin', Hend' in Heq. cbn [orb] in Heq. split.
    + intros err Herr. by rewrite Heq, Herr.
    + intros busy Hbusy sug'. rewrite Hbusy in Heq. fold sug' in Heq.
      split; [exact Heq|]. split.
      * destruct (scan (S fuel) (Some cursor) sug log) as [o log'] eqn:Hrun.
        exists o, log'. split; [done|].
        assert (Hsug : forall res, o = Ok res -> sug' `prefix_of` res) .
        { destruct (180 <? _); [by intros res ->; injection Heq as <- _|].
          symmetry in Heq.
          by destruct (forward_scan_prefix E a start _ _ step dur m Hstep Hdur
                         Hmax _ _ _ _ _ _ Heq). }
        assert (Hlog : (log ++ [q]) `prefix_of` log').
        { destruct (180 <? _); [by injection Heq as _ <-|].
          symmetry in Heq.
          by destruct (forward_scan_prefix E a start _ _ step dur m Hstep Hdur
                         Hmax _ _ _ _ _ _ Heq). }
        split; [exact Hlog|]. split; [exact Hsug|].
        intros Hpos Hcursor Hfuel ->.
        apply (forward_scan_returns E a start (Some workStart) (Some workEnd)
                 step dur m Hstep Hdur Hmax (S fuel) cursor sug log Hpos
                 Hcursor Hfuel).
        fold scan. by rewrite Hrun.
      * intros Hempty Hfull Hfuel. rewrite Heq. unfold sug'. rewrite Hempty.
        cbn [is_empty].
        destruct (180 <? _); [reflexivity|].
        destruct fuel as [|fuel']; [lia|]. unfold scan.
        rewrite (forward_scan_step E a start _ _ step dur m Hstep Hdur Hmax).
        assert ((Z.of_nat (length (sug ++ [format_HHmm E s])) <? m) = false)
          as ->; [|reflexivity].
        apply Z.ltb_ge. rewrite length_app. simpl. lia.
Qed.

(** ** The handlers on the small calendar *)

(** C2: the cap is tested after the candidate has been queried and recorded.
    With one event from 10:00 to 13:15 and a request for 10:00 (45 minutes,
    steps of 15, up to 3 suggestions), the scan queries 13 candidates, one
    more than 180/15 = 12, and answers 13:15, which starts 195 minutes after
    the primary slot. *)
Theorem C2_cap_is_tested_after_the_query :
  exists log',
    Availability.handler
      (Fixture.authorized [(Fixture.at_ 10 0, Fixture.at_ 13 15)])
      200 Fixture.ten_oclock []
    = (Some {| status := 200; json := Availability false ["13:15"] |}, log') /\
    length log' = 14%nat /\
    last log' = Some (FreeBusyQuery Fixture.barber (Fixture.at_ 13 15)
                        (Fixture.at_ 14 0) Fixture.zone) /\
    Fixture.HHmm (Fixture.at_ 13 15) = "13:15" /\
    Fixture.at_ 13 15 = Fixture.at_ 10 0 + 195 * MILLISECONDS_A_MINUTE.
Proof. eexists. vm_compute. repeat split; reflexivity. Qed.

Lemma C1_witness :
  Availability.handler (Fixture.authorized []) 0 Fixture.ten_oclock []
  = (Some {| status := 200; json := Availability true [] |},
     [FreeBusyQuery Fixture.barber (Fixture.at_ 10 0) (Fixture.at_ 10 45)
        Fixture.zone]).
Proof.
  apply (C1_primary_free_short_circuit (Fixture.authorized []) 0
           Fixture.ten_oclock [] {| credentials := Fixture.tokens |}
           (Fixture.at_ 10 0) 45 (Some []));
    vm_compute; reflexivity.
Defined.

Lemma C3_witness :
  exists r log',
    Availability.handler (Fixture.authorized [(Fixture.at_ 10 0, Fixture.at_ 10 20)])
      200 Fixture.ten_oclock [] = (Some r, log') /\
    forall sugerencias, json r = Availability false sugerencias ->
      exists starts : list Z,
        sugerencias = Fixture.HHmm <$> starts /\
        StronglySorted Z.le starts /\
        Forall (fun s =>
                  (exists k, 0 < k /\
                     s = Fixture.at_ 10 0 + k * 15 * MILLISECONDS_A_MINUTE) /\
                  Fixture.at_ 9 0 <= s /\
                  s + 45 * MILLISECONDS_A_MINUTE <= Fixture.at_ 19 0)
               starts /\
        Z.of_nat (length sugerencias) <= 3.
Proof.
  apply (C3_suggestions_ordered_spaced_within_hours
           (Fixture.authorized [(Fixture.at_ 10 0, Fixture.at_ 10 20)])
           200 Fixture.ten_oclock [] (Fixture.at_ 10 0) (Fixture.at_ 9 0)
           (Fixture.at_ 19 0) 15 45 3);
    try (vm_compute; reflexivity); try lia.
Defined.

Lemma C4_witness :
  Availability.forward_scan (Fixture.authorized [])
    (Availability.destructure (Fixture.authorized []) Fixture.ten_oclock)
    (Some (Fixture.at_ 10 0)) (Some (Fixture.at_ 9 0)) (Some (Fixture.at_ 11 15))
    5 (Some (Fixture.at_ 10 30)) ["10:30"] []
  = (Ok ["10:30"], [])
  /\ Availability.forward_scan (Fixture.authorized [])
       (Availability.destructure (Fixture.authorized [])
          (<["maxSugs" := JNum 1]> Fixture.ten_oclock))
       (Some (Fixture.at_ 10 0)) (Some (Fixture.at_ 9 0)) (Some (Fixture.at_ 11 15))
       5 (Some (Fixture.at_ 10 15)) [] []
     = (Ok ["10:30"],
        [FreeBusyQuery Fixture.barber (Fixture.at_ 10 30) (Fixture.at_ 11 15)
           Fixture.zone]).
Proof.
  split.
  - apply (C4_working_hours_boundary (Fixture.authorized [])
             (Availability.destructure (Fixture.authorized []) Fixture.ten_oclock)
             (Fixture.at_ 10 0) (Fixture.at_ 9 0) (Fixture.at_ 11 15) 15 45 3
             4 (Fixture.at_ 10 30) ["10:30"] []);
      try reflexivity.
    right. vm_compute. reflexivity.
  - destruct (C4_working_hours_boundary (Fixture.authorized [])
               (Availability.destructure (Fixture.authorized [])
                  (<["maxSugs" := JNum 1]> Fixture.ten_oclock))
               (Fixture.at_ 10 0) (Fixture.at_ 9 0) (Fixture.at_ 11 15) 15 45 1
               4 (Fixture.at_ 10 15) [] []) as [_ Haccepted];
      [vm_compute; reflexivity..|].
    destruct Haccepted as [_ Hanswered];
      [vm_compute; discriminate | vm_compute; reflexivity |].
    destruct (Hanswered (Some [])) as (_ & _ & Hfull);
      [vm_compute; reflexivity|].
    eapply eq_trans;
      [apply Hfull; [reflexivity | vm_compute; reflexivity | lia]|].
    vm_compute. reflexivity.
Defined.

Lemma C5_maxSuggestions_is_not_read :
  <["maxSuggestions" := JNum 1]> Fixture.ten_oclock !! "maxSuggestions"
  = Some (JNum 1) /\
  exists log',
    Availability.handler (Fixture.authorized [(Fixture.at_ 10 0, Fixture.at_ 10 20)])
      200 (<["maxSuggestions" := JNum 1]> Fixture.ten_oclock) []
    = (Some {| status := 200;
               json := Availability false ["10:30"; "10:45"; "11:00"] |}, log') /\
    ~ (length ["10:30"; "10:45"; "11:00"] <= 1)%nat.
Proof.
  split; [vm_compute; reflexivity|]. eexists. split; [vm_compute; reflexivity|].
  simpl. lia.
Defined.

Lemma C5_witness :
  exists r log',
    Availability.handler (Fixture.authorized [(Fixture.at_ 10 0, Fixture.at_ 10 20)])
      200 (<["maxSugs" := JNum 1]> Fixture.ten_oclock) [] = (Some r, log') /\
    forall disponible sugerencias,
      json r = Availability disponible sugerencias ->
      Z.of_nat (length sugerencias) <= 1 /\
      (0 < 1 -> Z.of_nat (length sugerencias) = 1 ->
       exists s e,
         last log'
         = Some (FreeBusyQuery
                   (Availability.calendarId
                      (Availability.destructure
                         (Fixture.authorized [(Fixture.at_ 10 0, Fixture.at_ 10 20)])
                         (<["maxSugs" := JNum 1]> Fixture.ten_oclock)))
                   s e
                   (Availability.tz
                      (Availability.destructure
                         (Fixture.authorized [(Fixture.at_ 10 0, Fixture.at_ 10 20)])
                         (<["maxSugs" := JNum 1]> Fixture.ten_oclock)))) /\
         last sugerencias = Some (Fixture.HHmm s)).
Proof.
  apply (C5_maxSugs_bounds_the_suggestions
           (Fixture.authorized [(Fixture.at_ 10 0, Fixture.at_ 10 20)])
           200 (<["maxSugs" := JNum 1]> Fixture.ten_oclock) [] 1 15);
    try (vm_compute; reflexivity); try lia.
  left. vm_compute. reflexivity.
Defined.

Lemma C6_missing_fields_come_first :
  getOAuth2Client Fixture.unauthorized = Return {| credentials := ∅ |} /\
  ensureAuthed {| credentials := ∅ |} = Raise AuthenticationError /\
  Availability.handler Fixture.unauthorized 200 ∅ []
  = (Some {| status := 400; json := ErrorBody "missing_fields" |}, []) /\
  Book.handler Fixture.unauthorized ∅ []
  = (Some {| status := 400; json := ErrorBody "missing_fields" |}, []) /\
  (400 <> 500).
Proof. repeat split; try (vm_compute; reflexivity). lia. Defined.

Lemma C6_witness :
  ensureAuthed {| credentials := ∅ |} = Raise AuthenticationError /\
  Availability.block Fixture.unauthorized 200
    (Availability.destructure Fixture.unauthorized Fixture.ten_oclock) []
    = (Throw AuthenticationError, []) /\
  Availability.handler Fixture.unauthorized 200 Fixture.ten_oclock []
    = (Some {| status := 500; json := ErrorBody "availability_failed" |}, []) /\
  Book.block Fixture.unauthorized
    (Book.destructure Fixture.unauthorized Fixture.ten_oclock) []
    = (Throw AuthenticationError, []) /\
  Book.handler Fixture.unauthorized Fixture.ten_oclock []
    = (Some {| status := 500; json := NotBooked "booking_failed" |}, []).
Proof.
  apply (C6_no_refresh_token_fails_before_any_call Fixture.unauthorized 200
           Fixture.ten_oclock [] {| credentials := ∅ |});
    vm_compute; reflexivity.
Defined.

Lemma C7_witness :
  Availability.handler Fixture.unauthorized 200
    (delete "calendarId" Fixture.ten_oclock) []
  = (Some {| status := 400; json := ErrorBody "missing_fields" |}, []).
Proof.
  apply (C7_missing_fields_rejected_first Fixture.unauthorized 200
           (delete "calendarId" Fixture.ten_oclock) []).
  left. vm_compute. reflexivity.
Defined.

Lemma C8_witness :
  (Availability.handler
     (Fixture.failing_at 3 (Fixture.authorized [(Fixture.at_ 10 0, Fixture.at_ 10 20)]))
     200 Fixture.ten_oclock []).1
  = Some {| status := 500; json := ErrorBody "availability_failed" |}.
Proof.
  apply (C8_rejected_query_aborts_request
           (Fixture.failing_at 3
              (Fixture.authorized [(Fixture.at_ 10 0, Fixture.at_ 10 20)]))
           200 Fixture.ten_oclock [] _
           (Availability.handler
              (Fixture.failing_at 3
                 (Fixture.authorized [(Fixture.at_ 10 0, Fixture.at_ 10 20)]))
              200 Fixture.ten_oclock []).2
           3 (FreeBusyQuery Fixture.barber (Fixture.at_ 10 45) (Fixture.at_ 11 30)
                Fixture.zone)).
  - apply surjective_pairing.
  - vm_compute. reflexivity.
  - simpl. lia.
  - vm_compute. reflexivity.
Defined.

Lemma C9_witness :
  (Book.handler (Fixture.authorized [(Fixture.at_ 9 0, Fixture.at_ 19 0)])
     Fixture.ten_oclock []).1
  = Some {| status := 200; json := Booked "evt0" |}.
Proof.
  apply (proj2 (proj2 (C9_booking_makes_no_availability_check
                  (Fixture.authorized [(Fixture.at_ 9 0, Fixture.at_ 19 0)])
                  Fixture.ten_oclock []) _ _ (surjective_pairing _))
           0%nat
           (EventsInsert Fixture.barber
              (Book.summary (Book.destructure
                 (Fixture.authorized [(Fixture.at_ 9 0, Fixture.at_ 19 0)])
                 Fixture.ten_oclock))
              (Book.description (Book.destructure
                 (Fixture.authorized [(Fixture.at_ 9 0, Fixture.at_ 19 0)])
                 Fixture.ten_oclock))
              (Fixture.at_ 10 0) (Fixture.at_ 10 45) Fixture.zone)
           "evt0").
  - vm_compute. reflexivity.
  - simpl. lia.
  - vm_compute. reflexivity.
Defined.

Lemma C10_witness :
  Availability.handler (Fixture.authorized []) 0
    (<["horarioInicio" := JStr "09:00"]>
       (<["horarioFin" := JStr "19:00"]> Fixture.evening)) []
  = (Some {| status := 200; json := Availability true [] |},
     [FreeBusyQuery Fixture.barber (Fixture.at_ 20 0) (Fixture.at_ 20 45)
        Fixture.zone]).
Proof.
  apply (C10_working_hours_do_not_bind_primary_slot (Fixture.authorized []) 0
           Fixture.evening
           (<["horarioInicio" := JStr "09:00"]>
              (<["horarioFin" := JStr "19:00"]> Fixture.evening)) []
           {| credentials := Fixture.tokens |} (Fixture.at_ 20 0) 45 (Some []));
    try (vm_compute; reflexivity).
  intros key Hinicio Hfin. by rewrite !lookup_insert_ne.
Defined.

(** * More of the code *)

(** ** Every stage of POST /availability *)

Section Stages.
Context (E : environment) (fuel : nat) (body : gmap string jval) (log : list call).

Local Abbreviation a := (Availability.destructure E body).
Local Abbreviation failed :=
  {| status := 500; json := ErrorBody "availability_failed" |}.
Local Abbreviation primary start dur :=
  (FreeBusyQuery (Availability.calendarId a) start
     (start + dur * MILLISECONDS_A_MINUTE) (Availability.tz a)).

(** The handler answers without a call; or after the primary query alone,
    because it was rejected, or reported free, or because the working hours
    cannot be read; or it runs the loop after a primary query reported busy. *)
Lemma handler_stages :
  (exists r, Availability.handler E fuel body log = (Some r, log) /\
             forall d sug, json r <> Availability d sug)
  \/ exists start dur,
       dayjs_tz E (datetime (Availability.date a) (Availability.time a))
                (Availability.tz a) = Return (Some start) /\
       to_number E (Availability.durationMin a) = Some dur /\
       ((rejected E (length log) (primary start dur) = true /\
         Availability.handler E fuel body log
         = (Some failed, log ++ [primary start dur]))
        \/ (reported_free E (length log) (primary start dur) = true /\
            Availability.handler E fuel body log
            = (Some {| status := 200; json := Availability true [] |},
               log ++ [primary start dur]))
        \/ (rejected E (length log) (primary start dur) = false /\
            reported_free E (length log) (primary start dur) = false /\
            (Availability.handler E fuel body log
             = (Some failed, log ++ [primary start dur])
             \/ exists workStart workEnd,
                  Availability.handler E fuel body log
                  = try_catch
                      (let* sug := Availability.forward_scan E a (Some start)
                                     workStart workEnd fuel (Some start) [] in
                       ret {| status := 200; json := Availability false sug |})
                      failed (log ++ [primary start dur])))).
Proof.
  destruct (negb (truthy (Availability.calendarId a))
            || negb (truthy (Availability.date a))
            || negb (truthy (Availability.time a))) eqn:Hmissing;
    [left; eexists; split; [run_handler | discriminate]|].
  destruct (getOAuth2Client E) as [auth|e] eqn:Hclient;
    [|left; eexists; split; [run_handler | discriminate]].
  destruct (ensureAuthed auth) as [[]|e] eqn:Hauth;
    [|left; eexists; split; [run_handler | discriminate]].
  destruct (dayjs_tz E (datetime (Availability.date a) (Availability.time a))
                     (Availability.tz a)) as [[start|]|e] eqn:Hstart;
    [|left; eexists; split; [run_handler | discriminate]..].
  destruct (to_number E (Availability.durationMin a)) as [dur|] eqn:Hdur;
    [|left; eexists; split; [run_handler | discriminate]].
  destruct (valid_time (start + dur * MILLISECONDS_A_MINUTE)) eqn:Hvalid;
    [|left; eexists; split; [run_handler | discriminate]].
  right. exists start, dur. do 2 (split; [reflexivity|]).
  cbn [rejected reported_free].
  destruct (freebusy_query E (length log) (Availability.calendarId a) start
              (start + dur * MILLISECONDS_A_MINUTE) (Availability.tz a))
    as [busy|e] eqn:Hbusy;
    [|left; split; [reflexivity | run_handler]].
  right.
  destruct (is_empty (default [] busy)) eqn:Hempty;
    [left; split; [reflexivity | run_handler]|].
  right. do 2 (split; [reflexivity|]).
  destruct (dayjs_tz E (datetime (Availability.date a)
                          (Some (Availability.horarioInicio a))) (Availability.tz a))
    as [workStart|e] eqn:HworkStart; [|left; run_handler].
  destruct (dayjs_tz E (datetime (Availability.date a)
                          (Some (Availability.horarioFin a))) (Availability.tz a))
    as [workEnd|e] eqn:HworkEnd; [|left; run_handler].
  right. exists workStart, workEnd. run_handler.
Qed.
End Stages.

(** ** What the loop asks and what it keeps *)

Section Loop.
Context (E : environment) (a : Availability.args).
Context (start workStart workEnd : instant).

Local Abbreviation scan := (Availability.forward_scan E a start workStart workEnd).

(** One round of the loop that gets to its query, whatever the arguments. *)
Lemma forward_scan_round fuel cursor sug log o log' :
  scan (S fuel) cursor sug log = (o, log') ->
  (o = Ok sug /\ log' = log)
  \/ (o = Throw RangeError /\ log' = log)
  \/ exists s dur,
       add E cursor (Availability.stepMin a) = Some s /\
       to_number E (Availability.durationMin a) = Some dur /\
       let q := FreeBusyQuery (Availability.calendarId a) s
                  (s + dur * MILLISECONDS_A_MINUTE) (Availability.tz a) in
       ((rejected E (length log) q = true /\ (exists e, o = Throw e) /\
         log' = log ++ [q])
        \/ (rejected E (length log) q = false /\
            let sug' := if reported_free E (length log) q
                        then sug ++ [format_HHmm E s] else sug in
            ((o = Ok sug' /\ log' = log ++ [q])
             \/ scan fuel (Some s) sug' (log ++ [q]) = (o, log')))).
Proof.
  cbn [Availability.forward_scan].
  destruct (lt_num _ _ _); [|intros [= <- <-]; by left].
  destruct (isBefore _ _ || isAfter _ _); [intros [= <- <-]; by left|].
  unfold bind at 1, freebusy, bind at 1, lift at 1, toISOString at 1.
  destruct (add E cursor (Availability.stepMin a)) as [s|] eqn:Hs;
    [|intros [= <- <-]; right; by left].
  unfold bind at 1, lift at 1, toISOString, add at 1.
  destruct (to_number E (Availability.durationMin a)) as [dur|] eqn:Hdur;
    [|intros [= <- <-]; right; by left].
  destruct (valid_time (s + dur * MILLISECONDS_A_MINUTE)) eqn:Hvalid;
    [|intros [= <- <-]; right; by left].
  intros Hrun. right. right. exists s, dur. do 2 (split; [reflexivity|]).
  cbv zeta. cbn [rejected reported_free].
  destruct (freebusy_query E (length log) (Availability.calendarId a) s
              (s + dur * MILLISECONDS_A_MINUTE) (Availability.tz a))
    as [busy|e] eqn:Hbusy.
  - right. split; [reflexivity|]. cbn [format] in Hrun.
    destruct (gt_180 _); [left | right; exact Hrun].
    by injection Hrun as <- <-.
  - left. injection Hrun as <- <-. eauto.
Qed.

(** Every call of the loop is a free/busy query for the calendar and zone of
    the request, over an interval that lasts [durationMin]. *)
Lemma forward_scan_calls fuel : forall cursor sug log o log',
  scan fuel cursor sug log = (o, log') ->
  exists calls,
    log' = log ++ calls /\
    Forall (fun c => exists s dur,
              to_number E (Availability.durationMin a) = Some dur /\
              c = FreeBusyQuery (Availability.calendarId a) s
                    (s + dur * MILLISECONDS_A_MINUTE) (Availability.tz a))
           calls.
Proof.
  induction fuel as [|fuel IH]; intros cursor sug log o log' Hrun.
  { injection Hrun as <- <-. exists []. by rewrite app_nil_r. }
  apply forward_scan_round in Hrun
    as [[_ ->] | [[_ ->] | (s & dur & _ & Hdur & Hrun)]];
    [exists []; by rewrite app_nil_r..|].
  cbv zeta in Hrun.
  destruct Hrun as [(_ & _ & ->) | [_ [[_ ->] | Hrest]]].
  - eexists [_]. split; [done|]. repeat constructor. eauto.
  - eexists [_]. split; [done|]. repeat constructor. eauto.
  - apply IH in Hrest as (calls & -> & Hcalls).
    eexists (_ :: calls). rewrite <- app_assoc. split; [done|].
    constructor; eauto.
Qed.

(** The loop only adds to the log. *)
Lemma forward_scan_prefix_any fuel cursor sug log o log' :
  scan fuel cursor sug log = (o, log') -> exists calls, log' = log ++ calls.
Proof.
  intros Hrun. apply forward_scan_calls in Hrun as (calls & -> & _). eauto.
Qed.

(** The list the loop returns is the list it started from, followed by the
    formatted starts of the candidates that the service reported free. *)
Lemma forward_scan_free_starts fuel : forall cursor sug log res log',
  scan fuel cursor sug log = (Ok res, log') ->
  exists calls,
    log' = log ++ calls /\
    res = sug ++ (format_HHmm E <$> free_starts E (length log) calls).
Proof.
  induction fuel as [|fuel IH]; intros cursor sug log res log' Hrun;
    [discriminate|].
  apply forward_scan_round in Hrun
    as [[[= <-] ->] | [[? _] | (s & dur & _ & Hdur & Hrun)]];
    [exists []; by rewrite !app_nil_r | discriminate |].
  cbv zeta in Hrun.
  destruct (reported_free E (length log)
              (FreeBusyQuery (Availability.calendarId a) s
                 (s + dur * MILLISECONDS_A_MINUTE) (Availability.tz a)))
    eqn:Hfree;
    (destruct Hrun as [(_ & [e ?] & _) | [_ [[[= ->] ->] | Hrest]]];
     [discriminate
     | eexists [_]; split; [done|]; cbn [free_starts]; rewrite Hfree
     | apply IH in Hrest as (calls & -> & ->);
       eexists (_ :: calls); rewrite <- app_assoc; split; [done|];
       cbn [free_starts]; rewrite Hfree, length_app, Nat.add_comm ]).
  - reflexivity.
  - by rewrite <- app_assoc.
  - by rewrite app_nil_r.
  - reflexivity.
Qed.
End Loop.

(** X1: when POST /availability answers with alternatives, they are exactly
    the candidates that the service reported free, in the order in which they
    were asked: the log is the primary query, reported busy, followed by the
    candidate queries, and [sugerencias] lists the formatted starts of those
    that came back with an empty busy list. *)
Theorem availability_suggests_the_free_candidates
    (E : environment) (fuel : nat) (body : gmap string jval) (log : list call)
    (r : response) (log' : list call) (sugerencias : list string) :
  Availability.handler E fuel body log = (Some r, log') ->
  json r = Availability false sugerencias ->
  exists q rest,
    log' = log ++ q :: rest /\
    reported_free E (length log) q = false /\
    sugerencias = format_HHmm E <$> free_starts E (S (length log)) rest.
Proof.
  intros Hrun Hjson.
  destruct (handler_stages E fuel body log)
    as [(r0 & H0 & Hno)
       | (start & dur & _ & _ &
          [[_ H0] | [[_ H0] | (_ & Hbusy & [H0 | (ws & we & H0)])]])];
    rewrite H0 in Hrun.
  - simplify_eq. by destruct (Hno _ _ Hjson).
  - simplify_eq.
  - simplify_eq.
  - simplify_eq.
  - unfold try_catch, bind, ret in Hrun.
    destruct (Availability.forward_scan _ _ _ _ _ _ _ _ _) as [[res|e|] log1]
      eqn:Hscan; simplify_eq.
    cbn [json] in Hjson. injection Hjson as <-.
    apply forward_scan_free_starts in Hscan as (calls & Hlog & Hres).
    eexists _, calls. rewrite Hlog, <- app_assoc. split; [done|]. split; [done|].
    by rewrite Hres, length_app, Nat.add_comm.
Qed.

(** X2: POST /availability only reads. Whatever the request and the answer,
    every call it makes is a free/busy query for the calendar and the time
    zone of the request, over an interval that lasts [durationMin] minutes;
    it never inserts an event. *)
Theorem availability_only_queries_the_requested_calendar
    (E : environment) (fuel : nat) (body : gmap string jval) (log : list call)
    (r : option response) (log' : list call) :
  Availability.handler E fuel body log = (r, log') ->
  exists calls,
    log' = log ++ calls /\
    Forall (fun c => exists s dur,
              to_number E (Availability.durationMin
                             (Availability.destructure E body)) = Some dur /\
              c = FreeBusyQuery (body !! "calendarId") s
                    (s + dur * MILLISECONDS_A_MINUTE)
                    (default (JStr (TIMEZONE E)) (body !! "tz")))
           calls.
Proof.
  intros Hrun.
  destruct (handler_stages E fuel body log)
    as [(r0 & H0 & Hno)
       | (start & dur & _ & Hdur &
          [[_ H0] | [[_ H0] | (_ & Hbusy & [H0 | (ws & we & H0)])]])];
    rewrite H0 in Hrun.
  - injection Hrun as <- <-. exists []. by rewrite app_nil_r.
  - injection Hrun as <- <-. eexists [_]. split; [done|]. repeat constructor. eauto.
  - injection Hrun as <- <-. eexists [_]. split; [done|]. repeat constructor. eauto.
  - injection Hrun as <- <-. eexists [_]. split; [done|]. repeat constructor. eauto.
  - unfold try_catch, bind, ret in Hrun.
    destruct (Availability.forward_scan _ _ _ _ _ _ _ _ _) as [o log1] eqn:Hscan.
    apply forward_scan_calls in Hscan as (calls & -> & Hcalls).
    assert (log' = (log ++ [FreeBusyQuery (body !! "calendarId") start
                       (start + dur * MILLISECONDS_A_MINUTE)
                       (default (JStr (TIMEZONE E)) (body !! "tz"))]) ++ calls)
      as -> by (destruct o; by injection Hrun).
    eexists (_ :: calls). rewrite <- app_assoc. split; [done|].
    constructor; [eauto | exact Hcalls].
Qed.

(** ** The loop on well-typed arguments, continued *)

Section Schedule.
Context (E : environment) (a : Availability.args).
Context (start : Z) (workStart workEnd : instant) (step dur m : Z).
Hypothesis Hstep : to_number E (Availability.stepMin a) = Some step.
Hypothesis Hdur : to_number E (Availability.durationMin a) = Some dur.
Hypothesis Hmax : to_number E (Availability.maxSugs a) = Some m.

Local Abbreviation scan :=
  (Availability.forward_scan E a (Some start) workStart workEnd).
Local Abbreviation query s :=
  (FreeBusyQuery (Availability.calendarId a) s
                 (s + dur * MILLISECONDS_A_MINUTE) (Availability.tz a)).
Local Abbreviation ask n s :=
  (freebusy_query E n (Availability.calendarId a) s
                  (s + dur * MILLISECONDS_A_MINUTE) (Availability.tz a)).
Local Abbreviation step_eq :=
  (forward_scan_step E a start workStart workEnd step dur m Hstep Hdur Hmax).

(** The candidates are asked one step apart, and the last one is asked at
    most one step beyond the cap. *)
Lemma forward_scan_schedule fuel : forall k0 sug log o log',
  0 < step -> 0 <= k0 -> k0 * step <= 180 ->
  scan fuel (Some (start + k0 * step * MILLISECONDS_A_MINUTE)) sug log = (o, log') ->
  exists calls,
    log' = log ++ calls /\
    (forall (i : nat) c, calls !! i = Some c ->
       c = query (start + (k0 + 1 + Z.of_nat i) * step * MILLISECONDS_A_MINUTE)) /\
    Z.of_nat (length calls) <= 180 ÷ step + 1 - k0.
Proof.
  induction fuel as [|fuel IH]; intros k0 sug log o log' Hpos Hk0 Hcap Hrun.
  { injection Hrun as <- <-. exists []. rewrite app_nil_r. split; [done|].
    split; [intros i c; by rewrite lookup_nil|].
    assert (k0 <= 180 ÷ step) by (rewrite Z.quot_div_nonneg by lia;
                                  apply Z.div_le_lower_bound; lia).
    simpl. lia. }
  assert (Hk : k0 <= 180 ÷ step)
    by (rewrite Z.quot_div_nonneg by lia; apply Z.div_le_lower_bound; lia).
  assert (Hnone : exists calls : list call,
            log = log ++ calls /\
            (forall (i : nat) c, calls !! i = Some c ->
               c = query (start + (k0 + 1 + Z.of_nat i) * step * MILLISECONDS_A_MINUTE)) /\
            Z.of_nat (length calls) <= 180 ÷ step + 1 - k0).
  { exists []. rewrite app_nil_r. split; [done|].
    split; [intros i c; by rewrite lookup_nil | simpl; lia]. }
  rewrite step_eq in Hrun.
  destruct (Z.of_nat (length sug) <? m); cbv zeta in Hrun;
    [|by injection Hrun as <- <-].
  destruct (valid_time _); [|by injection Hrun as <- <-].
  destruct (valid_time _);
    [|destruct (isBefore _ _); by injection Hrun as <- <-].
  destruct (isBefore _ _ || isAfter _ _); [by injection Hrun as <- <-|].
  replace (start + k0 * step * MILLISECONDS_A_MINUTE + step * MILLISECONDS_A_MINUTE)
    with (start + (k0 + 1) * step * MILLISECONDS_A_MINUTE) in Hrun by lia.
  assert (Hone : exists calls : list call,
            log ++ [query (start + (k0 + 1) * step * MILLISECONDS_A_MINUTE)]
            = log ++ calls /\
            (forall (i : nat) c, calls !! i = Some c ->
               c = query (start + (k0 + 1 + Z.of_nat i) * step * MILLISECONDS_A_MINUTE)) /\
            Z.of_nat (length calls) <= 180 ÷ step + 1 - k0).
  { eexists [_]. split; [done|]. split; [|simpl; lia].
    intros [|i] c Hc; [|by cbn in Hc].
    injection Hc as <-. by rewrite Z.add_0_r. }
  destruct (ask _ _) as [busy|err]; [|by injection Hrun as <- <-].
  destruct (180 <? _) eqn:Hover; [by injection Hrun as <- <-|].
  apply Z.ltb_ge in Hover.
  replace (start + (k0 + 1) * step * MILLISECONDS_A_MINUTE - start)
    with ((k0 + 1) * step * MILLISECONDS_A_MINUTE) in Hover by lia.
  rewrite Z.quot_mul in Hover by done.
  apply IH in Hrun as (calls & -> & Hcalls & Hlen); [|lia..].
  eexists (_ :: calls). rewrite <- app_assoc. split; [done|]. split.
  - intros [|i] c.
    + intros [= <-]. by rewrite Z.add_0_r.
    + intros Hc. rewrite (Hcalls i c Hc). do 3 f_equal; lia.
  - cbn [length]. lia.
Qed.



End Schedule.

(** ** The answers of POST /availability, continued *)

(** X3: for a request with numeric fields and a positive [stepMin], the calls
    of POST /availability follow a fixed schedule: the i-th call (the primary
    query is call 0) asks about the slot that starts i steps after the primary
    start, and there are at most 180/stepMin + 2 calls (rounding down), so the
    last candidate starts at most one step beyond the 180 minute cap. *)
Theorem availability_asks_one_step_apart
    (E : environment) (fuel : nat) (body : gmap string jval) (log : list call)
    (start step dur m : Z) (r : option response) (log' : list call) :
  let a := Availability.destructure E body in
  dayjs_tz E (datetime (Availability.date a) (Availability.time a))
           (Availability.tz a) = Return (Some start) ->
  to_number E (Availability.durationMin a) = Some dur ->
  to_number E (Availability.stepMin a) = Some step -> 0 < step ->
  to_number E (Availability.maxSugs a) = Some m ->
  Availability.handler E fuel body log = (r, log') ->
  exists calls,
    log' = log ++ calls /\
    (forall (i : nat) c, calls !! i = Some c ->
       c = FreeBusyQuery (Availability.calendarId a)
             (start + Z.of_nat i * step * MILLISECONDS_A_MINUTE)
             (start + Z.of_nat i * step * MILLISECONDS_A_MINUTE
              + dur * MILLISECONDS_A_MINUTE)
             (Availability.tz a)) /\
    Z.of_nat (length calls) <= 180 ÷ step + 2.
Proof.
  intros a Hstart Hdur Hstep Hpos Hmax Hrun.
  assert (Hq : 0 <= 180 ÷ step) by (apply Z.quot_pos; lia).
  assert (Hone : exists calls : list call,
            log ++ [FreeBusyQuery (Availability.calendarId a) start
                      (start + dur * MILLISECONDS_A_MINUTE) (Availability.tz a)]
            = log ++ calls /\
            (forall (i : nat) c, calls !! i = Some c ->
               c = FreeBusyQuery (Availability.calendarId a)
                     (start + Z.of_nat i * step * MILLISECONDS_A_MINUTE)
                     (start + Z.of_nat i * step * MILLISECONDS_A_MINUTE
                      + dur * MILLISECONDS_A_MINUTE)
                     (Availability.tz a)) /\
            Z.of_nat (length calls) <= 180 ÷ step + 2).
  { eexists [_]. split; [done|]. split; [|simpl; lia].
    intros [|i] c Hc; [|by cbn in Hc]. injection Hc as <-.
    do 2 f_equal; lia. }
  destruct (handler_stages E fuel body log)
    as [(r0 & H0 & _)
       | (start0 & dur0 & Hstart0 & Hdur0 &
          [[_ H0] | [[_ H0] | (_ & _ & [H0 | (ws & we & H0)])]])];
    fold a in H0; rewrite H0 in Hrun.
  - injection Hrun as <- <-. exists []. rewrite app_nil_r. split; [done|].
    split; [intros i c; by rewrite lookup_nil | simpl; lia].
  - fold a in Hstart0, Hdur0.
    assert (start0 = start) as -> by congruence.
    assert (dur0 = dur) as -> by congruence.
    injection Hrun as <- <-. exact Hone.
  - fold a in Hstart0, Hdur0.
    assert (start0 = start) as -> by congruence.
    assert (dur0 = dur) as -> by congruence.
    injection Hrun as <- <-. exact Hone.
  - fold a in Hstart0, Hdur0.
    assert (start0 = start) as -> by congruence.
    assert (dur0 = dur) as -> by congruence.
    injection Hrun as <- <-. exact Hone.
  - fold a in Hstart0, Hdur0.
    assert (start0 = start) as -> by congruence.
    assert (dur0 = dur) as -> by congruence.
    unfold try_catch, bind, ret in Hrun.
    destruct (Availability.forward_scan _ _ _ _ _ _ _ _ _) as [o log1] eqn:Hscan.
    replace (Some start) with (Some (start + 0 * step * MILLISECONDS_A_MINUTE))
      in Hscan at 2 by (f_equal; lia).
    apply (forward_scan_schedule E a start ws we step dur m Hstep Hdur Hmax)
      in Hscan as (calls & -> & Hcalls & Hlen); [|lia..].
    assert (log' = (log ++ [FreeBusyQuery (Availability.calendarId a) start
                       (start + dur * MILLISECONDS_A_MINUTE) (Availability.tz a)])
                   ++ calls) as -> by (destruct o; by injection Hrun).
    eexists (_ :: calls). rewrite <- app_assoc. split; [done|]. split.
    + intros [|i] c Hc.
      * injection Hc as <-. do 2 f_equal; lia.
      * rewrite (Hcalls i c Hc). do 2 f_equal; lia.
    + cbn [length]. lia.
Qed.

(** Run a handler past a primary query that came back busy. *)
Ltac run_busy :=
  run_handler; cbn [default from_option id is_empty]; run_handler.

Section Answers.
Context (E : environment) (body : gmap string jval).

Local Abbreviation a := (Availability.destructure E body).




(** X7: a [stepMin] that is not a number costs one query: when the primary
    slot (whose end is a valid date) is busy and there is room for a
    suggestion, the first candidate has no valid start, the request fails
    with 500 [availability_failed] and the primary query is the only call. *)
Theorem availability_step_not_a_number_fails
    (fuel : nat) (log : list call)
    (auth : OAuth2Client) (start dur m : Z) (workStart workEnd : instant)
    (b : Z * Z) (bs : list (Z * Z)) :
  truthy (Availability.calendarId a) = true ->
  truthy (Availability.date a) = true ->
  truthy (Availability.time a) = true ->
  getOAuth2Client E = Return auth ->
  ensureAuthed auth = Return tt ->
  dayjs_tz E (datetime (Availability.date a) (Availability.time a))
           (Availability.tz a) = Return (Some start) ->
  dayjs_tz E (datetime (Availability.date a) (Some (Availability.horarioInicio a)))
           (Availability.tz a) = Return workStart ->
  dayjs_tz E (datetime (Availability.date a) (Some (Availability.horarioFin a)))
           (Availability.tz a) = Return workEnd ->
  to_number E (Availability.durationMin a) = Some dur ->
  valid_time (start + dur * MILLISECONDS_A_MINUTE) = true ->
  freebusy_query E (length log) (Availability.calendarId a) start
    (start + dur * MILLISECONDS_A_MINUTE) (Availability.tz a)
  = Return (Some (b :: bs)) ->
  to_number E (Availability.maxSugs a) = Some m -> 0 < m ->
  to_number E (Availability.stepMin a) = None ->
  (0 < fuel)%nat ->
  Availability.handler E fuel body log
  = (Some {| status := 500; json := ErrorBody "availability_failed" |},
     log ++ [FreeBusyQuery (Availability.calendarId a) start
               (start + dur * MILLISECONDS_A_MINUTE) (Availability.tz a)]).
Proof.
  intros Hc Hd Ht Hclient Hauth Hstart HworkStart HworkEnd Hdur Hvalid Hb
    Hmax Hm Hstep Hfuel.
  destruct fuel as [|fuel]; [lia|].
  assert (Hroom : lt_num E (length (@nil string)) (Availability.maxSugs a) = true).
  { unfold lt_num. rewrite Hmax. apply Z.ltb_lt. simpl. lia. }
  run_busy. cbn [Availability.forward_scan]. rewrite Hroom.
  unfold add. by rewrite Hstep.
Qed.

(** X21: a [stepMin] that carries the first candidate out of the range of
    dates (2e11 minutes, say) costs one query as well: when the primary slot
    is busy and there is room for a suggestion, the candidate is an invalid
    date, which no working hour stops, and the request fails with 500
    [availability_failed] after the primary query. *)
Theorem availability_step_out_of_range_fails
    (fuel : nat) (log : list call)
    (auth : OAuth2Client) (start step dur m : Z) (workStart workEnd : instant)
    (b : Z * Z) (bs : list (Z * Z)) :
  truthy (Availability.calendarId a) = true ->
  truthy (Availability.date a) = true ->
  truthy (Availability.time a) = true ->
  getOAuth2Client E = Return auth ->
  ensureAuthed auth = Return tt ->
  dayjs_tz E (datetime (Availability.date a) (Availability.time a))
           (Availability.tz a) = Return (Some start) ->
  dayjs_tz E (datetime (Availability.date a) (Some (Availability.horarioInicio a)))
           (Availability.tz a) = Return workStart ->
  dayjs_tz E (datetime (Availability.date a) (Some (Availability.horarioFin a)))
           (Availability.tz a) = Return workEnd ->
  to_number E (Availability.durationMin a) = Some dur ->
  valid_time (start + dur * MILLISECONDS_A_MINUTE) = true ->
  freebusy_query E (length log) (Availability.calendarId a) start
    (start + dur * MILLISECONDS_A_MINUTE) (Availability.tz a)
  = Return (Some (b :: bs)) ->
  to_number E (Availability.maxSugs a) = Some m -> 0 < m ->
  to_number E (Availability.stepMin a) = Some step ->
  valid_time (start + step * MILLISECONDS_A_MINUTE) = false ->
  (0 < fuel)%nat ->
  Availability.handler E fuel body log
  = (Some {| status := 500; json := ErrorBody "availability_failed" |},
     log ++ [FreeBusyQuery (Availability.calendarId a) start
               (start + dur * MILLISECONDS_A_MINUTE) (Availability.tz a)]).
Proof.
  intros Hc Hd Ht Hclient Hauth Hstart HworkStart HworkEnd Hdur Hvalid Hb
    Hmax Hm Hstep Hout Hfuel.
  destruct fuel as [|fuel]; [lia|].
  assert (Hroom : lt_num E (length (@nil string)) (Availability.maxSugs a) = true).
  { unfold lt_num. rewrite Hmax. apply Z.ltb_lt. simpl. lia. }
  run_busy. cbn [Availability.forward_scan]. rewrite Hroom.
  unfold add. by rewrite Hstep, Hout.
Qed.
End Answers.

(** ** Both endpoints on a slot that cannot be built *)

(** X8: when the date and time cannot be read in the time zone, or
    [durationMin] is not a number, a complete and authorized request fails
    with 500 on both endpoints before any call: no query is made and no event
    is inserted. *)
Theorem unreadable_slot_fails_before_any_call
    (E : environment) (fuel : nat) (body : gmap string jval) (log : list call)
    (auth : OAuth2Client) :
  truthy (body !! "calendarId") = true ->
  truthy (body !! "date") = true ->
  truthy (body !! "time") = true ->
  getOAuth2Client E = Return auth ->
  ensureAuthed auth = Return tt ->
  (exists e, dayjs_tz E (datetime (body !! "date") (body !! "time"))
               (default (JStr (TIMEZONE E)) (body !! "tz")) = Raise e) \/
  dayjs_tz E (datetime (body !! "date") (body !! "time"))
    (default (JStr (TIMEZONE E)) (body !! "tz")) = Return None \/
  to_number E (default (JNum 45) (body !! "durationMin")) = None ->
  Availability.handler E fuel body log
  = (Some {| status := 500; json := ErrorBody "availability_failed" |}, log) /\
  Book.handler E body log
  = (Some {| status := 500; json := NotBooked "booking_failed" |}, log).
Proof.
  intros Hc Hd Ht Hclient Hauth Hslot.
  unfold Availability.handler, Book.handler, try_catch,
    Availability.block, Book.block.
  cbn [Availability.calendarId Availability.date Availability.time
       Availability.tz Availability.durationMin Availability.destructure
       Book.calendarId Book.date Book.time Book.tz Book.durationMin
       Book.destructure].
  rewrite Hc, Hd, Ht. cbn [negb orb].
  unfold bind, lift, freebusy, insert, bind, lift, add.
  rewrite Hclient, Hauth.
  destruct Hslot as [[e ->] | [-> | Hdur]]; [done | done |].
  rewrite Hdur.
  by destruct (dayjs_tz E _ _) as [[start|]|e].
Qed.

(** X22: a primary slot whose end leaves the range of dates (with a
    [durationMin] of 2e11, say) cannot be written into a request: a complete
    and authorized request fails with 500 on both endpoints before any call. *)
Theorem out_of_range_end_fails_before_any_call
    (E : environment) (fuel : nat) (body : gmap string jval) (log : list call)
    (auth : OAuth2Client) (start dur : Z) :
  truthy (body !! "calendarId") = true ->
  truthy (body !! "date") = true ->
  truthy (body !! "time") = true ->
  getOAuth2Client E = Return auth ->
  ensureAuthed auth = Return tt ->
  dayjs_tz E (datetime (body !! "date") (body !! "time"))
    (default (JStr (TIMEZONE E)) (body !! "tz")) = Return (Some start) ->
  to_number E (default (JNum 45) (body !! "durationMin")) = Some dur ->
  valid_time (start + dur * MILLISECONDS_A_MINUTE) = false ->
  Availability.handler E fuel body log
  = (Some {| status := 500; json := ErrorBody "availability_failed" |}, log) /\
  Book.handler E body log
  = (Some {| status := 500; json := NotBooked "booking_failed" |}, log).
Proof.
  intros Hc Hd Ht Hclient Hauth Hstart Hdur Hout.
  unfold Availability.handler, Book.handler, try_catch,
    Availability.block, Book.block.
  cbn [Availability.calendarId Availability.date Availability.time
       Availability.tz Availability.durationMin Availability.destructure
       Book.calendarId Book.date Book.time Book.tz Book.durationMin
       Book.destructure].
  rewrite Hc, Hd, Ht. cbn [negb orb].
  unfold bind, lift, freebusy, insert, bind, lift, add.
  by rewrite Hclient, Hauth, Hstart, Hdur, Hout.
Qed.

(** ** POST /book *)

(** X9: a booking request in which [calendarId], [date] or [time] is missing
    or falsy is answered 400 [{error: "missing_fields"}] before the
    credentials are looked at, and no call is made. *)
Theorem book_missing_fields_rejected_first
    (E : environment) (body : gmap string jval) (log : list call) :
  truthy (body !! "calendarId") = false \/
  truthy (body !! "date") = false \/
  truthy (body !! "time") = false ->
  Book.handler E body log
  = (Some {| status := 400; json := ErrorBody "missing_fields" |}, log).
Proof.
  intros Hmissing. unfold Book.handler, Book.block, try_catch.
  cbn [Book.calendarId Book.date Book.time Book.destructure].
  assert (negb (truthy (body !! "calendarId")) || negb (truthy (body !! "date"))
          || negb (truthy (body !! "time")) = true) as ->; [|reflexivity].
  destruct Hmissing as [-> | [-> | ->]];
    [ reflexivity | by rewrite orb_true_r | by rewrite orb_true_r ].
Qed.

Section BookingCall.
Context (E : environment) (body : gmap string jval) (log : list call).

Local Abbreviation a := (Book.destructure E body).

(** The one call of the booking handler. *)
Lemma book_call r log' :
  Book.handler E body log = (r, log') ->
  log' = log
  \/ exists start dur,
       dayjs_tz E (datetime (Book.date a) (Book.time a)) (Book.tz a)
       = Return (Some start) /\
       to_number E (Book.durationMin a) = Some dur /\
       log' = log ++ [EventsInsert (Book.calendarId a) (Book.summary a)
                        (Book.description a) start
                        (start + dur * MILLISECONDS_A_MINUTE) (Book.tz a)].
Proof.
  destruct (negb (truthy (Book.calendarId a)) || negb (truthy (Book.date a))
            || negb (truthy (Book.time a))) eqn:Hmissing;
    [run_handler; intros [= <- <-]; by left|].
  destruct (getOAuth2Client E) as [auth|e] eqn:Hclient;
    [|run_handler; intros [= <- <-]; by left].
  destruct (ensureAuthed auth) as [[]|e] eqn:Hauth;
    [|run_handler; intros [= <- <-]; by left].
  destruct (dayjs_tz E (datetime (Book.date a) (Book.time a)) (Book.tz a))
    as [[start|]|e] eqn:Hstart;
    [|run_handler; intros [= <- <-]; by left..].
  destruct (to_number E (Book.durationMin a)) as [dur|] eqn:Hdur;
    [|run_handler; intros [= <- <-]; by left].
  destruct (valid_time (start + dur * MILLISECONDS_A_MINUTE)) eqn:Hvalid;
    [|run_handler; intros [= <- <-]; by left].
  intros Hrun. right. exists start, dur. do 2 (split; [reflexivity|]).
  revert Hrun. run_handler.
  by destruct (events_insert E _ _ _ _ _ _ _); intros [= <- <-].
Qed.
End BookingCall.

(** X10: POST /book books the slot that POST /availability asks about first.
    For one and the same body, the primary query of the availability handler
    and the event inserted by the booking handler carry the same calendar,
    the same start, the same end and the same time zone. *)
Theorem book_inserts_the_primary_slot
    (E : environment) (fuel : nat) (body : gmap string jval) (log : list call)
    (r1 r2 : option response) (q1 q2 : call) (rest : list call) :
  Availability.handler E fuel body log = (r1, log ++ q1 :: rest) ->
  Book.handler E body log = (r2, log ++ [q2]) ->
  exists calendarId s e tz summary description,
    q1 = FreeBusyQuery calendarId s e tz /\
    q2 = EventsInsert calendarId summary description s e tz.
Proof.
  intros Hav Hbook.
  apply book_call in Hbook as [Hsame | (start & dur & Hstart & Hdur & Hlog)].
  { exfalso. apply (f_equal length) in Hsame.
    rewrite length_app in Hsame. simpl in Hsame. lia. }
  apply app_inv_head in Hlog. injection Hlog as ->.
  cbn [Book.date Book.time Book.tz Book.durationMin Book.calendarId
       Book.destructure] in *.
  apply availability_only_queries_the_requested_calendar in Hav as Hshape.
  destruct Hshape as (calls & Hcalls & Hshape).
  apply app_inv_head in Hcalls. subst calls.
  apply Forall_cons_1 in Hshape as [(s & dur' & Hdur' & ->) _].
  cbn [Availability.durationMin Availability.destructure] in Hdur'.
  assert (dur' = dur) as -> by congruence.
  assert (s = start) as ->.
  { destruct (handler_stages E fuel body log)
      as [(r0 & H0 & _)
         | (start0 & dur0 & Hstart0 & Hdur0 &
            [[_ H0] | [[_ H0] | (_ & _ & [H0 | (ws & we & H0)])]])];
      rewrite H0 in Hav;
      cbn [Availability.date Availability.time Availability.tz
           Availability.calendarId Availability.destructure] in *.
    - injection Hav as _ Hlog. exfalso. apply (f_equal length) in Hlog.
      rewrite length_app in Hlog. simpl in Hlog. lia.
    - injection Hav as _ Hlog. apply app_inv_head in Hlog.
      injection Hlog as -> _. congruence.
    - injection Hav as _ Hlog. apply app_inv_head in Hlog.
      injection Hlog as -> _. congruence.
    - injection Hav as _ Hlog. apply app_inv_head in Hlog.
      injection Hlog as -> _. congruence.
    - unfold try_catch, bind, ret in Hav.
      destruct (Availability.forward_scan _ _ _ _ _ _ _ _ _) as [o log1]
        eqn:Hscan.
      apply forward_scan_prefix_any in Hscan as [calls ->].
      assert (Hlog : (log ++ [FreeBusyQuery (body !! "calendarId") start0
                         (start0 + dur0 * MILLISECONDS_A_MINUTE)
                         (default (JStr (TIMEZONE E)) (body !! "tz"))]) ++ calls
                     = log ++ FreeBusyQuery (body !! "calendarId") s
                         (s + dur * MILLISECONDS_A_MINUTE)
                         (default (JStr (TIMEZONE E)) (body !! "tz")) :: rest)
        by (destruct o; by injection Hav).
      rewrite <- app_assoc in Hlog. apply app_inv_head in Hlog.
      injection Hlog as -> _. congruence. }
  by eexists _, _, _, _, _, _.
Qed.

(** X11: POST /book makes at most one call, an event insertion, and when the
    service rejects it the answer is 500
    [{ok: false, error: "booking_failed"}]. *)
Theorem book_makes_one_call_at_most
    (E : environment) (body : gmap string jval) (log : list call)
    (r : option response) (log' : list call) :
  Book.handler E body log = (r, log') ->
  (log' = log \/ exists q, log' = log ++ [q] /\ is_query q = false) /\
  (forall (n : nat) (q : call),
     log' !! n = Some q -> (length log <= n)%nat -> rejected E n q = true ->
     r = Some {| status := 500; json := NotBooked "booking_failed" |}).
Proof.
  intros Hrun.
  destruct (book_cases E body log)
    as [[r0 H0] | (q0 & Hq0 & [(id0 & Hid & H0) | [Hnone H0]])];
    rewrite H0 in Hrun; injection Hrun as <- <-.
  - split; [by left|]. intros n q Hq Hn. apply lookup_lt_Some in Hq. lia.
  - split; [right; eauto|]. intros n q Hq Hn Hrej.
    assert (n = length log) as ->.
    { apply lookup_lt_Some in Hq. rewrite length_app in Hq. simpl in Hq. lia. }
    rewrite list_lookup_middle in Hq by done. injection Hq as <-.
    destruct q0; [discriminate|]. cbn [created rejected] in Hid, Hrej.
    by destruct (events_insert E _ _ _ _ _ _ _).
  - split; [right; eauto | done].
Qed.

(** ** Credentials, from their sources to the guard *)

(** [getOAuth2Client] in terms of the sources that are read. *)
Lemma getOAuth2Client_effective (E : environment) :
  getOAuth2Client E =
  match effective (CREDENTIALS_JSON E) (CREDENTIALS_FILE E) with
  | Some BadJson => Raise SyntaxError
  | _ =>
    match effective (TOKENS_JSON E) (TOKENS_FILE E) with
    | Some BadJson => Raise SyntaxError
    | Some (Json tokens) => Return {| credentials := tokens |}
    | None => Return {| credentials := ∅ |}
    end
  end.
Proof.
  unfold getOAuth2Client, readJsonFallback, effective.
  by destruct (CREDENTIALS_JSON E) as [[|c]|], (CREDENTIALS_FILE E) as [[|c']|],
              (TOKENS_JSON E) as [[|t]|], (TOKENS_FILE E) as [[|t']|].
Qed.

(** X12: what lets a request past the guard. [getOAuth2Client] followed by
    [ensureAuthed] succeeds exactly when neither source that is read is
    malformed (the environment value when there is one, the file otherwise)
    and the tokens that are read carry a truthy [refresh_token]. Client
    credentials that are absent altogether do not stop a request. *)
Theorem guard_passes_iff_refresh_token_is_read (E : environment) :
  (exists auth, getOAuth2Client E = Return auth /\ ensureAuthed auth = Return tt)
  <->
  (effective (CREDENTIALS_JSON E) (CREDENTIALS_FILE E) <> Some BadJson /\
   exists tokens,
     effective (TOKENS_JSON E) (TOKENS_FILE E) = Some (Json tokens) /\
     truthy (tokens !! "refresh_token") = true).
Proof.
  rewrite getOAuth2Client_effective. unfold ensureAuthed. split.
  - intros (auth & Hclient & Hauth).
    assert (Hcreds : effective (CREDENTIALS_JSON E) (CREDENTIALS_FILE E)
                     <> Some BadJson).
    { intros Hbad. rewrite Hbad in Hclient. discriminate. }
    split; [exact Hcreds|].
    destruct (effective (TOKENS_JSON E) (TOKENS_FILE E)) as [[|tokens]|].
    + by destruct (effective (CREDENTIALS_JSON E) _) as [[|c]|].
    + exists tokens. split; [done|].
      assert (auth = {| credentials := tokens |}) as ->
        by (destruct (effective (CREDENTIALS_JSON E) _) as [[|c]|]; congruence).
      cbn [credentials] in Hauth. by destruct (truthy _).
    + assert (auth = {| credentials := ∅ |}) as ->
        by (destruct (effective (CREDENTIALS_JSON E) _) as [[|c]|]; congruence).
      cbn [credentials] in Hauth. by rewrite lookup_empty in Hauth.
  - intros (Hcreds & tokens & -> & Htruthy).
    exists {| credentials := tokens |}. cbn [credentials]. rewrite Htruthy.
    split; [|done].
    by destruct (effective (CREDENTIALS_JSON E) _) as [[|c]|].
Qed.

(** X13: a malformed JSON source stops every request that the guard
    protects. When the credentials or the tokens that [readJsonFallback]
    reads are not JSON, a complete request to POST /availability or
    POST /book is answered 500 and no call is made. *)
Theorem malformed_source_fails_before_any_call
    (E : environment) (fuel : nat) (body : gmap string jval) (log : list call) :
  truthy (body !! "calendarId") = true ->
  truthy (body !! "date") = true ->
  truthy (body !! "time") = true ->
  effective (CREDENTIALS_JSON E) (CREDENTIALS_FILE E) = Some BadJson \/
  effective (TOKENS_JSON E) (TOKENS_FILE E) = Some BadJson ->
  Availability.handler E fuel body log
  = (Some {| status := 500; json := ErrorBody "availability_failed" |}, log) /\
  Book.handler E body log
  = (Some {| status := 500; json := NotBooked "booking_failed" |}, log).
Proof.
  intros Hc Hd Ht Hbad.
  assert (Hclient : getOAuth2Client E = Raise SyntaxError).
  { rewrite getOAuth2Client_effective.
    destruct Hbad as [-> | ->]; [done|].
    by destruct (effective (CREDENTIALS_JSON E) _) as [[|c]|]. }
  unfold Availability.handler, Book.handler, try_catch,
    Availability.block, Book.block.
  cbn [Availability.calendarId Availability.date Availability.time
       Availability.destructure Book.calendarId Book.date Book.time
       Book.destructure].
  rewrite Hc, Hd, Ht. cbn [negb orb]. unfold bind, lift.
  by rewrite Hclient.
Qed.

(** ** GET /oauth2callback *)

(** X14: the callback reports success whether or not the tokens were saved.
    It answers 200 with the "saved" text exactly when the client can be built
    and the code is exchanged; a refused write changes neither the answer nor
    the process. *)
Theorem callback_reports_saved_without_saving
    (E : environment) (W : OAuthCallback.world) (query : gmap string jval) :
  ((OAuthCallback.handler E W query).1 = (200, OAuthCallback.saved) <->
   (exists auth, getOAuth2Client E = Return auth) /\
   (exists tokens, OAuthCallback.getToken W (query !! "code") = Return tokens))
  /\ (OAuthCallback.writable W = false ->
      (OAuthCallback.handler E W query).2 = E).
Proof.
  unfold OAuthCallback.handler, OAuthCallback.write_tokens. split.
  - destruct (getOAuth2Client E) as [auth|e];
      [destruct (OAuthCallback.getToken W _) as [tokens|e]|]; cbn [fst];
      split; try discriminate; eauto;
      intros [[? ?] [? ?]]; discriminate.
  - intros Hro. rewrite Hro.
    destruct (getOAuth2Client E) as [auth|e];
      [destruct (OAuthCallback.getToken W _) as [[tokens|]|e]|]; reflexivity.
Qed.

(** X15: tokens saved by the callback are the ones later requests use, as
    long as no [TOKENS_JSON] is set: after a callback that exchanged the code
    for [tokens] and could write the file, [getOAuth2Client] holds exactly
    those tokens, so the guard passes if and only if they carry a truthy
    [refresh_token]. *)
Theorem callback_tokens_are_read_back
    (E : environment) (W : OAuthCallback.world) (query : gmap string jval)
    (auth : OAuth2Client) (tokens : gmap string jval) :
  TOKENS_JSON E = None ->
  getOAuth2Client E = Return auth ->
  OAuthCallback.getToken W (query !! "code") = Return (Some tokens) ->
  OAuthCallback.writable W = true ->
  getOAuth2Client (OAuthCallback.handler E W query).2
  = Return {| credentials := tokens |} /\
  (ensureAuthed {| credentials := tokens |} = Return tt <->
   truthy (tokens !! "refresh_token") = true).
Proof.
  intros Henv Hclient Htoken Hwritable. split.
  - unfold OAuthCallback.handler, OAuthCallback.write_tokens.
    rewrite Hclient, Htoken, Hwritable. cbn [snd].
    unfold getOAuth2Client in *. cbn [CREDENTIALS_JSON CREDENTIALS_FILE
      TOKENS_JSON TOKENS_FILE with_tokens_file].
    destruct (readJsonFallback (CREDENTIALS_JSON E) (CREDENTIALS_FILE E));
      [|discriminate].
    by rewrite Henv.
  - unfold ensureAuthed. cbn [credentials].
    by destruct (truthy _).
Qed.

(** X16: with [TOKENS_JSON] set, the callback changes nothing for later
    requests: whatever it exchanged and wrote, [getOAuth2Client] builds the
    same client as before. *)
Theorem callback_cannot_replace_environment_tokens
    (E : environment) (W : OAuthCallback.world) (query : gmap string jval)
    (text : json_text (gmap string jval)) :
  TOKENS_JSON E = Some text ->
  getOAuth2Client (OAuthCallback.handler E W query).2 = getOAuth2Client E.
Proof.
  intros Henv. unfold OAuthCallback.handler, OAuthCallback.write_tokens.
  destruct (getOAuth2Client E) as [auth|e] eqn:Hclient; [|done].
  destruct (OAuthCallback.getToken W _) as [[tokens|]|e]; [|done..].
  destruct (OAuthCallback.writable W); [|done]. cbn [snd].
  rewrite <- Hclient. unfold getOAuth2Client.
  cbn [CREDENTIALS_JSON CREDENTIALS_FILE TOKENS_JSON TOKENS_FILE
       with_tokens_file].
  by rewrite Henv.
Qed.

(** X17: a malformed source blocks the callback itself. When the credentials
    or the tokens that [readJsonFallback] reads are not JSON, the callback
    answers 500 "Auth error" without exchanging the code or writing anything,
    so a corrupt [tokens.json] cannot be repaired through the consent flow. *)
Theorem callback_fails_on_malformed_source
    (E : environment) (W : OAuthCallback.world) (query : gmap string jval) :
  effective (CREDENTIALS_JSON E) (CREDENTIALS_FILE E) = Some BadJson \/
  effective (TOKENS_JSON E) (TOKENS_FILE E) = Some BadJson ->
  OAuthCallback.handler E W query = ((500, "Auth error"), E).
Proof.
  intros Hbad.
  assert (Hclient : getOAuth2Client E = Raise SyntaxError).
  { rewrite getOAuth2Client_effective.
    destruct Hbad as [-> | ->]; [done|].
    by destruct (effective (CREDENTIALS_JSON E) _) as [[|c]|]. }
  unfold OAuthCallback.handler. by rewrite Hclient.
Qed.

(** ** GET /calendars/list and POST /calendars/create *)

(** X18: both calendar endpoints are behind the guard. When the client
    cannot be built or holds no truthy [refresh_token], listing answers 500
    [{error: "list_failed"}], creating answers 500
    [{ok: false, error: "create_calendar_failed"}], and neither makes a call. *)
Theorem calendars_need_a_refresh_token
    (E : environment) (S : Calendars.service) (body : gmap string jval) :
  (forall auth, getOAuth2Client E = Return auth ->
                truthy (credentials auth !! "refresh_token") = false) ->
  Calendars.list_handler E S = ((500, Calendars.ListFailed), []) /\
  Calendars.create_handler E S body = ((500, Calendars.CreateFailed), []).
Proof.
  intros Hguard. unfold Calendars.list_handler, Calendars.create_handler.
  destruct (getOAuth2Client E) as [auth|e]; [|done].
  unfold ensureAuthed. by rewrite (Hguard auth eq_refl).
Qed.

(** X19: POST /calendars/create checks nothing in the body. Past the guard
    it makes exactly one insertion, with the [summary] of the body as it is
    (even absent) and with [timeZone] replaced by the process time zone only
    when the key is absent; it answers 200 with the new id if the service
    accepts the insertion and 500 otherwise. *)
Theorem create_calendar_inserts_whatever_it_is_given
    (E : environment) (S : Calendars.service) (body : gmap string jval)
    (auth : OAuth2Client) :
  getOAuth2Client E = Return auth ->
  ensureAuthed auth = Return tt ->
  let timeZone := match body !! "timeZone" with
                  | Some zone => zone
                  | None => JStr (TIMEZONE E)
                  end in
  (Calendars.create_handler E S body).2
  = [Calendars.CalendarsInsert (body !! "summary") timeZone] /\
  (forall id, Calendars.calendars_insert S (body !! "summary") timeZone = Return id ->
     (Calendars.create_handler E S body).1 = (200, Calendars.Created id)) /\
  (forall e, Calendars.calendars_insert S (body !! "summary") timeZone = Raise e ->
     (Calendars.create_handler E S body).1 = (500, Calendars.CreateFailed)).
Proof.
  intros Hclient Hauth timeZone. unfold Calendars.create_handler.
  rewrite Hclient, Hauth.
  change (default (JStr (TIMEZONE E)) (body !! "timeZone")) with timeZone.
  destruct (Calendars.calendars_insert S _ _) as [id|e];
    (split; [reflexivity|]); split; intros ? [= <-]; reflexivity.
Qed.

(** X20: GET /calendars/list keeps the order and the number of the calendars
    the service reports, reduces each to its [summary], [id], [primary] and
    [timeZone], and turns [primary] into a boolean; a reply without [items]
    is answered with the empty list, not with an error. *)
Theorem list_calendars_keeps_order_and_count
    (E : environment) (S : Calendars.service) (auth : OAuth2Client)
    (items : option (list (gmap string jval))) :
  getOAuth2Client E = Return auth ->
  ensureAuthed auth = Return tt ->
  Calendars.calendarList_list S = Return items ->
  exists listed,
    Calendars.list_handler E S
    = ((200, Calendars.Items listed), [Calendars.CalendarListList]) /\
    length listed = length (default [] items) /\
    (items = None -> listed = []) /\
    forall (i : nat) c, default [] items !! i = Some c ->
      listed !! i = Some {| Calendars.summary := c !! "summary";
                            Calendars.id := c !! "id";
                            Calendars.primary := truthy (c !! "primary");
                            Calendars.timeZone := c !! "timeZone" |}.
Proof.
  intros Hclient Hauth Hlist. unfold Calendars.list_handler.
  rewrite Hclient, Hauth, Hlist. eexists. split; [reflexivity|].
  split; [by rewrite length_fmap|]. split; [by intros ->|].
  intros i c Hc. by rewrite list_lookup_fmap, Hc.
Qed.

(** ** More runs on the small calendar *)

Lemma availability_suggests_the_free_candidates_witness :
  exists q rest,
    (Availability.handler
       (Fixture.authorized [(Fixture.at_ 10 0, Fixture.at_ 10 20)])
       200 Fixture.ten_oclock []).2 = [] ++ q :: rest /\
    reported_free (Fixture.authorized [(Fixture.at_ 10 0, Fixture.at_ 10 20)])
      (length (@nil call)) q = false /\
    ["10:30"; "10:45"; "11:00"]
    = format_HHmm (Fixture.authorized [(Fixture.at_ 10 0, Fixture.at_ 10 20)])
      <$> free_starts (Fixture.authorized [(Fixture.at_ 10 0, Fixture.at_ 10 20)])
            (S (length (@nil call))) rest.
Proof.
  apply (availability_suggests_the_free_candidates
           (Fixture.authorized [(Fixture.at_ 10 0, Fixture.at_ 10 20)])
           200 Fixture.ten_oclock []
           {| status := 200;
              json := Availability false ["10:30"; "10:45"; "11:00"] |});
    vm_compute; reflexivity.
Defined.

Lemma availability_only_queries_the_requested_calendar_witness :
  exists calls,
    (Availability.handler
       (Fixture.authorized [(Fixture.at_ 10 0, Fixture.at_ 10 20)])
       200 Fixture.ten_oclock []).2 = [] ++ calls /\
    Forall (fun c => exists s dur,
              to_number (Fixture.authorized [(Fixture.at_ 10 0, Fixture.at_ 10 20)])
                (Availability.durationMin
                   (Availability.destructure
                      (Fixture.authorized [(Fixture.at_ 10 0, Fixture.at_ 10 20)])
                      Fixture.ten_oclock)) = Some dur /\
              c = FreeBusyQuery (Fixture.ten_oclock !! "calendarId") s
                    (s + dur * MILLISECONDS_A_MINUTE)
                    (default (JStr (TIMEZONE
                       (Fixture.authorized [(Fixture.at_ 10 0, Fixture.at_ 10 20)])))
                       (Fixture.ten_oclock !! "tz")))
           calls.
Proof.
  apply (availability_only_queries_the_requested_calendar
           (Fixture.authorized [(Fixture.at_ 10 0, Fixture.at_ 10 20)])
           200 Fixture.ten_oclock []
           (Availability.handler
              (Fixture.authorized [(Fixture.at_ 10 0, Fixture.at_ 10 20)])
              200 Fixture.ten_oclock []).1).
  apply surjective_pairing.
Defined.

Lemma availability_asks_one_step_apart_witness :
  exists calls,
    (Availability.handler
       (Fixture.authorized [(Fixture.at_ 10 0, Fixture.at_ 13 15)])
       200 Fixture.ten_oclock []).2 = [] ++ calls /\
    (forall (i : nat) c, calls !! i = Some c ->
       c = FreeBusyQuery
             (Availability.calendarId
                (Availability.destructure
                   (Fixture.authorized [(Fixture.at_ 10 0, Fixture.at_ 13 15)])
                   Fixture.ten_oclock))
             (Fixture.at_ 10 0 + Z.of_nat i * 15 * MILLISECONDS_A_MINUTE)
             (Fixture.at_ 10 0 + Z.of_nat i * 15 * MILLISECONDS_A_MINUTE
              + 45 * MILLISECONDS_A_MINUTE)
             (Availability.tz
                (Availability.destructure
                   (Fixture.authorized [(Fixture.at_ 10 0, Fixture.at_ 13 15)])
                   Fixture.ten_oclock))) /\
    Z.of_nat (length calls) <= 180 ÷ 15 + 2.
Proof.
  apply (availability_asks_one_step_apart
           (Fixture.authorized [(Fixture.at_ 10 0, Fixture.at_ 13 15)])
           200 Fixture.ten_oclock [] (Fixture.at_ 10 0) 15 45 3
           (Availability.handler
              (Fixture.authorized [(Fixture.at_ 10 0, Fixture.at_ 13 15)])
              200 Fixture.ten_oclock []).1);
    try (vm_compute; reflexivity); try lia.
Defined.




Lemma availability_step_not_a_number_fails_witness :
  Availability.handler
    (Fixture.authorized [(Fixture.at_ 10 0, Fixture.at_ 10 20)]) 1
    (<["stepMin" := JStr "soon"]> Fixture.ten_oclock) []
  = (Some {| status := 500; json := ErrorBody "availability_failed" |},
     [FreeBusyQuery Fixture.barber (Fixture.at_ 10 0) (Fixture.at_ 10 45)
        Fixture.zone]).
Proof.
  eapply eq_trans.
  - apply (availability_step_not_a_number_fails
             (Fixture.authorized [(Fixture.at_ 10 0, Fixture.at_ 10 20)])
             (<["stepMin" := JStr "soon"]> Fixture.ten_oclock) 1 []
             {| credentials := Fixture.tokens |} (Fixture.at_ 10 0) 45 3
             (Some (Fixture.at_ 9 0)) (Some (Fixture.at_ 19 0))
             (Fixture.at_ 10 0, Fixture.at_ 10 20) []);
      try (vm_compute; reflexivity); try lia.
  - vm_compute. reflexivity.
Defined.

Lemma unreadable_slot_fails_before_any_call_witness :
  Availability.handler (Fixture.authorized []) 200
    (<["time" := JStr "noon"]> Fixture.ten_oclock) []
  = (Some {| status := 500; json := ErrorBody "availability_failed" |}, []) /\
  Book.handler (Fixture.authorized [])
    (<["time" := JStr "noon"]> Fixture.ten_oclock) []
  = (Some {| status := 500; json := NotBooked "booking_failed" |}, []).
Proof.
  apply (unreadable_slot_fails_before_any_call (Fixture.authorized []) 200
           (<["time" := JStr "noon"]> Fixture.ten_oclock) []
           {| credentials := Fixture.tokens |});
    try (vm_compute; reflexivity).
  left. exists RangeError. vm_compute. reflexivity.
Defined.

Lemma book_missing_fields_rejected_first_witness :
  Book.handler Fixture.unauthorized (delete "date" Fixture.ten_oclock) []
  = (Some {| status := 400; json := ErrorBody "missing_fields" |}, []).
Proof.
  apply (book_missing_fields_rejected_first Fixture.unauthorized
           (delete "date" Fixture.ten_oclock) []).
  right. left. vm_compute. reflexivity.
Defined.

Lemma book_inserts_the_primary_slot_witness :
  exists calendarId s e tz summary description,
    FreeBusyQuery Fixture.barber (Fixture.at_ 10 0) (Fixture.at_ 10 45) Fixture.zone
    = FreeBusyQuery calendarId s e tz /\
    EventsInsert Fixture.barber "Servicio - Cliente"
      (Book.description (Book.destructure (Fixture.authorized []) Fixture.ten_oclock))
      (Fixture.at_ 10 0) (Fixture.at_ 10 45) Fixture.zone
    = EventsInsert calendarId summary description s e tz.
Proof.
  apply (book_inserts_the_primary_slot (Fixture.authorized []) 200
           Fixture.ten_oclock []
           (Some {| status := 200; json := Availability true [] |})
           (Some {| status := 200; json := Booked "evt0" |})
           (FreeBusyQuery Fixture.barber (Fixture.at_ 10 0) (Fixture.at_ 10 45)
              Fixture.zone)
           (EventsInsert Fixture.barber "Servicio - Cliente"
              (Book.description
                 (Book.destructure (Fixture.authorized []) Fixture.ten_oclock))
              (Fixture.at_ 10 0) (Fixture.at_ 10 45) Fixture.zone)
           []);
    vm_compute; reflexivity.
Defined.

Lemma book_makes_one_call_at_most_witness :
  ((Book.handler Scenario.refusing Fixture.ten_oclock []).2 = [] \/
   exists q, (Book.handler Scenario.refusing Fixture.ten_oclock []).2 = [] ++ [q] /\
             is_query q = false) /\
  (forall (n : nat) (q : call),
     (Book.handler Scenario.refusing Fixture.ten_oclock []).2 !! n = Some q ->
     (length (@nil call) <= n)%nat -> rejected Scenario.refusing n q = true ->
     (Book.handler Scenario.refusing Fixture.ten_oclock []).1
     = Some {| status := 500; json := NotBooked "booking_failed" |}).
Proof.
  apply (book_makes_one_call_at_most Scenario.refusing Fixture.ten_oclock []).
  apply surjective_pairing.
Defined.

Lemma malformed_source_fails_before_any_call_witness :
  Availability.handler Scenario.corrupt 200 Fixture.ten_oclock []
  = (Some {| status := 500; json := ErrorBody "availability_failed" |}, []) /\
  Book.handler Scenario.corrupt Fixture.ten_oclock []
  = (Some {| status := 500; json := NotBooked "booking_failed" |}, []).
Proof.
  apply (malformed_source_fails_before_any_call Scenario.corrupt 200
           Fixture.ten_oclock []);
    try (vm_compute; reflexivity).
  right. reflexivity.
Defined.

Lemma callback_tokens_are_read_back_witness :
  getOAuth2Client
    (OAuthCallback.handler Scenario.fresh (Scenario.granting true)
       {[ "code" := JStr "4/ok" ]}).2
  = Return {| credentials := Fixture.tokens |} /\
  (ensureAuthed {| credentials := Fixture.tokens |} = Return tt <->
   truthy (Fixture.tokens !! "refresh_token") = true).
Proof.
  apply (callback_tokens_are_read_back Scenario.fresh (Scenario.granting true)
           {[ "code" := JStr "4/ok" ]} {| credentials := ∅ |} Fixture.tokens);
    vm_compute; reflexivity.
Defined.

Lemma callback_cannot_replace_environment_tokens_witness :
  getOAuth2Client
    (OAuthCallback.handler Scenario.stale (Scenario.granting true)
       {[ "code" := JStr "4/ok" ]}).2
  = getOAuth2Client Scenario.stale.
Proof.
  apply (callback_cannot_replace_environment_tokens Scenario.stale
           (Scenario.granting true) {[ "code" := JStr "4/ok" ]}
           (Json {[ "access_token" := JStr "ya29" ]})).
  reflexivity.
Defined.

Lemma callback_fails_on_malformed_source_witness :
  OAuthCallback.handler Scenario.corrupt (Scenario.granting true)
    {[ "code" := JStr "4/ok" ]}
  = ((500, "Auth error"), Scenario.corrupt).
Proof.
  apply (callback_fails_on_malformed_source Scenario.corrupt
           (Scenario.granting true) {[ "code" := JStr "4/ok" ]}).
  right. reflexivity.
Defined.

Lemma calendars_need_a_refresh_token_witness :
  Calendars.list_handler Scenario.stale Scenario.two_calendars
  = ((500, Calendars.ListFailed), []) /\
  Calendars.create_handler Scenario.stale Scenario.two_calendars
    {[ "summary" := JStr "Barber 2" ]}
  = ((500, Calendars.CreateFailed), []).
Proof.
  apply (calendars_need_a_refresh_token Scenario.stale Scenario.two_calendars
           {[ "summary" := JStr "Barber 2" ]}).
  intros auth Hclient. vm_compute in Hclient. injection Hclient as <-.
  vm_compute. reflexivity.
Defined.

Lemma create_calendar_inserts_whatever_it_is_given_witness :
  (Calendars.create_handler (Fixture.authorized []) Scenario.two_calendars ∅).2
  = [Calendars.CalendarsInsert None (JStr "America/Costa_Rica")] /\
  (Calendars.create_handler (Fixture.authorized []) Scenario.two_calendars ∅).1
  = (200, Calendars.Created (Some (JStr "new@group"))).
Proof.
  destruct (create_calendar_inserts_whatever_it_is_given (Fixture.authorized [])
              Scenario.two_calendars ∅ {| credentials := Fixture.tokens |})
    as (Hcalls & Hok & _); [vm_compute; reflexivity..|].
  split; [exact Hcalls|]. apply Hok. reflexivity.
Defined.

Lemma list_calendars_keeps_order_and_count_witness :
  exists listed,
    Calendars.list_handler (Fixture.authorized []) Scenario.two_calendars
    = ((200, Calendars.Items listed), [Calendars.CalendarListList]) /\
    length listed = 2%nat /\
    listed !! 0%nat
    = Some {| Calendars.summary := Some (JStr "Me");
              Calendars.id := Some (JStr "primary");
              Calendars.primary := true;
              Calendars.timeZone := None |}.
Proof.
  destruct (list_calendars_keeps_order_and_count (Fixture.authorized [])
              Scenario.two_calendars {| credentials := Fixture.tokens |}
              (Some [ {[ "id" := JStr "primary"; "summary" := JStr "Me";
                         "primary" := JBool true; "etag" := JStr "x" ]};
                      {[ "id" := JStr "barber@group.calendar.google.com";
                         "summary" := JStr "Barber" ]} ]))
    as (listed & Hrun & Hlen & _ & Hat); [vm_compute; reflexivity..|].
  exists listed. split; [exact Hrun|]. split; [exact Hlen|].
  rewrite (Hat 0%nat _ eq_refl). vm_compute. reflexivity.
Defined.

Lemma availability_step_out_of_range_fails_witness :
  Availability.handler
    (Fixture.authorized [(Fixture.at_ 10 0, Fixture.at_ 10 20)]) 1
    (<["stepMin" := JNum 200000000000]> Fixture.ten_oclock) []
  = (Some {| status := 500; json := ErrorBody "availability_failed" |},
     [FreeBusyQuery Fixture.barber (Fixture.at_ 10 0) (Fixture.at_ 10 45)
        Fixture.zone]).
Proof.
  eapply eq_trans.
  - apply (availability_step_out_of_range_fails
             (Fixture.authorized [(Fixture.at_ 10 0, Fixture.at_ 10 20)])
             (<["stepMin" := JNum 200000000000]> Fixture.ten_oclock) 1 []
             {| credentials := Fixture.tokens |} (Fixture.at_ 10 0)
             200000000000 45 3
             (Some (Fixture.at_ 9 0)) (Some (Fixture.at_ 19 0))
             (Fixture.at_ 10 0, Fixture.at_ 10 20) []);
      try (vm_compute; reflexivity); try lia.
  - vm_compute. reflexivity.
Defined.

Lemma out_of_range_end_fails_before_any_call_witness :
  Availability.handler (Fixture.authorized []) 200
    (<["durationMin" := JNum 200000000000]> Fixture.ten_oclock) []
  = (Some {| status := 500; json := ErrorBody "availability_failed" |}, []) /\
  Book.handler (Fixture.authorized [])
    (<["durationMin" := JNum 200000000000]> Fixture.ten_oclock) []
  = (Some {| status := 500; json := NotBooked "booking_failed" |}, []).
Proof.
  apply (out_of_range_end_fails_before_any_call (Fixture.authorized []) 200
           (<["durationMin" := JNum 200000000000]> Fixture.ten_oclock) []
           {| credentials := Fixture.tokens |} (Fixture.at_ 10 0)
           200000000000);
    vm_compute; reflexivity.
Defined.
